(** * loc-image-retriever: filename, path and URL derivation, retrieval loop

    A shallow embedding of [src/loc_image_retriever/retriever.py] and of the
    parts of Python's [str] and [pathlib] (pure POSIX flavour, CPython 3.8 to
    3.12) that the program calls, followed by the properties of the
    specification that were checked against it. *)

From Stdlib Require Import ZArith List Bool Lia.
From Stdlib Require Import Strings.String Strings.Ascii Numbers.DecimalString.
From Stdlib Require Numbers.DecimalZ.
From stdpp Require Import gmap strings.
Import ListNotations.

Open Scope string_scope.
Open Scope Z_scope.
Open Scope list_scope.

(* Let [simpl] compute string concatenation on constructors again. *)
#[local] Arguments String.append !s1 s2 : simpl nomatch.

(** ** Exceptions and fallible results *)

(** The exceptions that the program can meet.  A [ValueError] carries the
    fixed part of the message of [pathlib]. *)
Inductive exn : Type :=
| KeyError (key : string)
| ValueError (msg : string)
| ConnectionError (url : string)
| OSError (path : string).

Inductive result (A : Type) : Type :=
| Ok (a : A)
| Raise (e : exn).

Arguments Ok {A} a.
Arguments Raise {A} e.

Definition bind {A B : Type} (r : result A) (k : A -> result B) : result B :=
  match r with
  | Ok a => k a
  | Raise e => Raise e
  end.

Notation "'let*' x ':=' r 'in' k" := (bind r (fun x => k))
  (at level 10, x name, r at level 100, k at level 200).

Definition is_ok {A : Type} (r : result A) : bool :=
  match r with Ok _ => true | Raise _ => false end.

(** ** Python strings *)

Module PyStr.

Definition len (s : string) : Z := Z.of_nat (String.length s).

(** [c in s] for a one-character [c]. *)
Fixpoint contains (c : ascii) (s : string) : bool :=
  match s with
  | EmptyString => false
  | String a s' => Ascii.eqb a c || contains c s'
  end.

(** [s.replace(a, b)] for one-character [a] and [b]. *)
Fixpoint replace (a b : ascii) (s : string) : string :=
  match s with
  | EmptyString => EmptyString
  | String c s' => String (if Ascii.eqb c a then b else c) (replace a b s')
  end.

(** [s.split(sep)] for a one-character [sep]: never the empty list. *)
Fixpoint split (sep : ascii) (s : string) : list string :=
  match s with
  | EmptyString => [EmptyString]
  | String c s' =>
      if Ascii.eqb c sep then EmptyString :: split sep s'
      else match split sep s' with
           | [] => [String c EmptyString]
           | h :: t => String c h :: t
           end
  end.

(** [sep.join(l)]. *)
Definition join (sep : string) (l : list string) : string :=
  String.concat sep l.

(** [s.rfind(c)], counted from position [i] of the first character:
    the highest index holding [c], or [-1]. *)
Fixpoint rfind_from (c : ascii) (s : string) (i : Z) : Z :=
  match s with
  | EmptyString => -1
  | String a s' =>
      let r := rfind_from c s' (i + 1) in
      if 0 <=? r then r else if Ascii.eqb a c then i else -1
  end.

Definition rfind (c : ascii) (s : string) : Z := rfind_from c s 0.

(** [s[i:]] and [s[:i]] for [0 <= i]. *)
Definition slice_from (i : Z) (s : string) : string :=
  let n := Z.to_nat i in substring n (String.length s - n) s.

Definition slice_to (i : Z) (s : string) : string :=
  substring 0 (Z.to_nat i) s.

(** [s.lstrip(c)]. *)
Fixpoint lstrip (c : ascii) (s : string) : string :=
  match s with
  | EmptyString => EmptyString
  | String a s' => if Ascii.eqb a c then lstrip c s' else s
  end.

Fixpoint zeros (n : nat) : string :=
  match n with
  | O => EmptyString
  | S n' => String "0" (zeros n')
  end.

(** [s.zfill(width)]: zeros go after a leading sign. *)
Definition zfill (width : Z) (s : string) : string :=
  if width <=? len s then s
  else
    let pad := zeros (Z.to_nat (width - len s)) in
    match s with
    | String c rest =>
        if Ascii.eqb c "+" || Ascii.eqb c "-"
        then String c (pad +:+ rest)
        else pad +:+ s
    | EmptyString => pad
    end.

(** [str(i)] for an [int]. *)
Definition of_int (i : Z) : string := NilEmpty.string_of_int (Z.to_int i).

End PyStr.

(** ** Values read from the YAML document *)

Inductive pyval : Type :=
| PyNone
| PyInt (i : Z)
| PyStr (s : string).

(** Truth value, as tested by [if v:]. *)
Definition truthy (v : pyval) : bool :=
  match v with
  | PyNone => false
  | PyInt i => negb (i =? 0)
  | PyStr s => negb (String.eqb s "")
  end.

(** [str(v)], which is also what an f-string field [{v}] prints. *)
Definition py_str (v : pyval) : string :=
  match v with
  | PyNone => "None"
  | PyInt i => PyStr.of_int i
  | PyStr s => s
  end.

(** ** pathlib: pure POSIX paths *)

Module Pathlib.

(** A parsed path: [root] is [""], ["/"] or ["//"]; [parts] are the
    components after the root. *)
Record PurePath : Type := mkPath { root : string; parts : list string }.

Definition sep : ascii := "/"%char.

(** [_PosixFlavour.splitroot]. *)
Definition splitroot (part : string) : string * string :=
  match part with
  | String c _ =>
      if Ascii.eqb c sep then
        let stripped := PyStr.lstrip sep part in
        if PyStr.len part - PyStr.len stripped =? 2
        then ("//", stripped) else ("/", stripped)
      else ("", part)
  | EmptyString => ("", part)
  end.

Definition keep_component (x : string) : bool :=
  negb (String.eqb x "") && negb (String.eqb x ".").

(** [Path(s)] for one string argument. *)
Definition of_str (s : string) : PurePath :=
  let '(r, rel) := splitroot s in
  mkPath r (List.filter keep_component (PyStr.split sep rel)).

(** Joining, as [Path(p, q)] does: an anchored [q] discards [p]. *)
Definition joinpath (p q : PurePath) : PurePath :=
  if String.eqb (root q) "" then mkPath (root p) (parts p ++ parts q)
  else q.

(** [str(p)]. *)
Definition to_str (p : PurePath) : string :=
  match root p, parts p with
  | EmptyString, [] => "."
  | r, ps => r +:+ PyStr.join "/" ps
  end.

(** [p.name]: the final component, [""] when there is none. *)
Definition name (p : PurePath) : string := List.last (parts p) "".

(** [p.suffix]. *)
Definition suffix (p : PurePath) : string :=
  let n := name p in
  let i := PyStr.rfind "." n in
  if (0 <? i) && (i <? PyStr.len n - 1) then PyStr.slice_from i n else "".

Definition is_absolute (p : PurePath) : bool := negb (String.eqb (root p) "").

(** [p.with_suffix(suffix)]. *)
Definition with_suffix (p : PurePath) (sfx : string) : result PurePath :=
  if PyStr.contains sep sfx then Raise (ValueError "Invalid suffix")
  else if (negb (String.eqb sfx "") && negb (String.prefix "." sfx))
          || String.eqb sfx "."
  then Raise (ValueError "Invalid suffix")
  else
    let n := name p in
    if String.eqb n "" then Raise (ValueError "has an empty name")
    else
      let old_suffix := suffix p in
      let n' :=
        if String.eqb old_suffix "" then n +:+ sfx
        else PyStr.slice_to (PyStr.len n - PyStr.len old_suffix) n +:+ sfx in
      Ok (mkPath (root p) (List.removelast (parts p) ++ [n'])).

End Pathlib.

Import Pathlib.

(** ** The program *)

(** [filename_segments] of a collection: the [name], [year] and [vol] keys. *)
Record name_segments : Type := mkSegments {
  seg_name : list string;
  seg_year : pyval;
  seg_vol : pyval
}.

(** Lines 25-31 of [create_filename]: the copy of the name list with the
    year and volume tokens appended. *)
Definition base_segments (ns : name_segments) : list string :=
  let segments := seg_name ns in
  let segments :=
    if truthy (seg_year ns) then segments ++ [py_str (seg_year ns)]
    else segments in
  if truthy (seg_vol ns) then segments ++ ["vol_" +:+ py_str (seg_vol ns)]
  else segments.

(** The index token of lines 42-43. *)
Definition pad_num (num : string) : string :=
  if PyStr.len num <? 4 then PyStr.zfill 4 num else num.

(** Lines 37-44 of [create_filename]: the segments of an image file.  The
    optional arguments [part] and [num] are [None] or a string. *)
Definition image_segments (ns : name_segments) (part num : option string)
  : list string :=
  let segments := base_segments ns in
  let segments :=
    if truthy (seg_vol ns) then segments ++ ["vol_" +:+ py_str (seg_vol ns)]
    else segments in
  let segments :=
    match part with
    | Some p => if truthy (PyStr p) then segments ++ [p] else segments
    | None => segments
    end in
  match num with
  | Some n => if truthy (PyStr n) then segments ++ [pad_num n] else segments
  | None => segments
  end.

Definition create_filename (ns : name_segments) (part num : option string)
  (format : string) : result PurePath :=
  if String.eqb format "log" then
    with_suffix (of_str (PyStr.join "-" (base_segments ns))) ("." +:+ format)
  else
    with_suffix (of_str (PyStr.join "-" (image_segments ns part num)))
                ("." +:+ format).

(** [create_filepath]; [cwd] stands for the value of [Path.cwd()]. *)
Definition create_filepath (cwd : PurePath) (output_path : string)
  (filename : PurePath) : PurePath :=
  joinpath (joinpath cwd (of_str output_path)) filename.

(** The options resolved from the command line. *)
Record parser : Type := mkParser {
  output : string;
  format : string;
  region : string;
  size : pyval;
  rotation_degrees : pyval;
  quality : string
}.

(** The global settings of [config.yml]; [service_path] is a dictionary
    from format to service path. *)
Record config : Type := mkConfig {
  protocol : string;
  subdomain : string;
  domain : string;
  service_path : gmap string string
}.

(** [d[k]] on a dictionary: a missing key raises [KeyError]. *)
Definition getitem (d : gmap string string) (k : string) : result string :=
  match d !! k with
  | Some v => Ok v
  | None => Raise (KeyError k)
  end.

Definition raw_formats : list string := ["gif"; "jp2"; "tif"].

Definition is_raw_format (f : string) : bool :=
  List.existsb (String.eqb f) raw_formats.

Definition create_url (p : parser) (c : config) (gmd id_prefix num : string)
  : result string :=
  if is_raw_format (format p) then
    let* sp := getitem (service_path c) (format p) in
    Ok (PyStr.join "" [
      protocol c;
      "://" +:+ subdomain c;
      "." +:+ domain c;
      "/" +:+ sp;
      "/" +:+ PyStr.replace ":" "/" gmd;
      "/" +:+ id_prefix +:+ num;
      "." +:+ format p
    ])
  else
    let* sp := getitem (service_path c) (format p) in
    Ok (PyStr.join "" [
      protocol c;
      "://" +:+ subdomain c;
      "." +:+ domain c;
      "/" +:+ sp;
      ":" +:+ gmd;
      ":" +:+ id_prefix +:+ num;
      "/" +:+ region p;
      "/pct:" +:+ py_str (size p);
      "/" +:+ py_str (rotation_degrees p);
      "/" +:+ quality p;
      "." +:+ format p
    ]).

(** ** The retrieval loop of [main] *)

(** One entry of [path_segments]. *)
Record path_segment : Type := mkPathSegment {
  gmd : string;
  id_prefix : string;
  part : option string;
  index_start : Z;
  index_stop : Z;
  zfill_width : Z
}.

(** One collection of [config.yml]. *)
Record map_config : Type := mkMapConfig {
  digital_id : string;
  manifest : string;
  filename_segments : name_segments;
  path_segments : list path_segment
}.

(** What [requests.get] hands back when the exchange itself succeeded,
    whatever the status the server answered with. *)
Record response : Type := mkResponse { status_code : Z; content : string }.

Definition success (r : response) : bool :=
  (200 <=? status_code r) && (status_code r <? 300).

(** The collaborators of the loop: the HTTP client and the chunked writer.
    Either may raise. *)
Record world : Type := mkWorld {
  requests_get : string -> result response;
  write_file_response_chunked : PurePath -> response -> result unit
}.

(** The observable actions of a run, in the order they happen. *)
Inductive event : Type :=
| Fetch (url : string)
| LogInfo (msg : string)
| FileWrite (filepath : PurePath) (r : response).

(** A computation that leaves a trace and may stop on an exception. *)
Definition run (A : Type) : Type := (list event * result A)%type.

Definition ret {A : Type} (a : A) : run A := ([], Ok a).

Definition emit (e : event) : run unit := ([e], Ok tt).

Definition lift {A : Type} (r : result A) : run A := ([], r).

Definition seq {A B : Type} (m : run A) (k : A -> run B) : run B :=
  match m with
  | (t, Ok a) => let '(t', r) := k a in (t ++ t', r)
  | (t, Raise e) => (t, Raise e)
  end.

Notation "x <- m ;; k" := (seq m (fun x => k))
  (at level 100, m at next level, right associativity).
Notation "m ;;; k" := (seq m (fun _ => k))
  (at level 100, right associativity).

(** [for x in l: body(x)]. *)
Fixpoint for_each {A : Type} (l : list A) (body : A -> run unit) : run unit :=
  match l with
  | [] => ret tt
  | x :: xs => body x ;;; for_each xs body
  end.

(** [range(start, stop, 1)]. *)
Definition range (start stop : Z) : list Z :=
  List.map (fun k => start + Z.of_nat k) (List.seq 0 (Z.to_nat (stop - start))).

(** Lines 163-165: the index token. *)
Definition index_token (width i : Z) : string :=
  let num := PyStr.of_int i in
  if 0 <? width then PyStr.zfill width num else num.

(** [requests.get(url, stream=True)]: the call is made, then it returns a
    response or raises. *)
Definition fetch (w : world) (url : string) : run response :=
  ([Fetch url], requests_get w url).

(** [logger.info(msg)]. *)
Definition info (msg : string) : run unit := emit (LogInfo msg).

(** [utl.write.write_file_response_chunked(filepath, response, 'wb')]. *)
Definition write (w : world) (filepath : PurePath) (r : response) : run unit :=
  ([FileWrite filepath r], write_file_response_chunked w filepath r).

(** Lines 163-182: the body of the inner loop. *)
Definition retrieve (w : world) (cwd : PurePath) (p : parser) (c : config)
  (ns : name_segments) (path : path_segment) (i : Z) : run unit :=
  let num := index_token (zfill_width path) i in
  url <- lift (create_url p c (gmd path) (id_prefix path) num) ;;
  response <- fetch w url ;;
  info ("Target URL: " +:+ url) ;;;
  filename <- lift (create_filename ns (part path) (Some num) (format p)) ;;
  let filepath := create_filepath cwd (output p) filename in
  info ("Image renamed to " +:+ name filepath) ;;;
  write w filepath response.

(** Lines 153-182: both loops. *)
Definition retrieve_files (w : world) (cwd : PurePath) (p : parser)
  (c : config) (mc : map_config) : run unit :=
  for_each (path_segments mc) (fun path =>
    for_each (range (index_start path) (index_stop path)) (fun i =>
      retrieve w cwd p c (filename_segments mc) path i)).

(** [main], after the arguments and the configuration have been read;
    [started] and [ended] stand for the two readings of the clock.  The
    handlers of the logger are left out: what is logged is kept in the
    trace. *)
Definition main (w : world) (cwd : PurePath) (started ended : string)
  (p : parser) (c : config) (mc : map_config) : run unit :=
  _ <- lift (create_filename (filename_segments mc) None None "log") ;;
  info ("Start run: " +:+ started) ;;;
  info ("Digital Id: " +:+ digital_id mc) ;;;
  info ("Manifest: " +:+ manifest mc) ;;;
  retrieve_files w cwd p c mc ;;;
  info ("End run: " +:+ ended).

(** ** Predicates used to state the properties *)

(** Number of positions of [s] at which [pat] starts. *)
Fixpoint occurrences (pat s : string) : nat :=
  match s with
  | EmptyString => O
  | String _ s' => ((if String.prefix pat s then 1 else 0) + occurrences pat s')%nat
  end.

(** Number of characters of [s] equal to [c]. *)
Fixpoint count_char (c : ascii) (s : string) : nat :=
  match s with
  | EmptyString => O
  | String a s' => ((if Ascii.eqb a c then 1 else 0) + count_char c s')%nat
  end.

(** [s] ends with [sfx]. *)
Definition ends_with (sfx s : string) : Prop := exists pre, s = pre +:+ sfx.

(** A non-empty string without ['/'] and without ['.']: a single path
    component that carries no extension yet. *)
Definition plain (s : string) : bool :=
  negb (String.eqb s "") && negb (PyStr.contains "/" s)
  && negb (PyStr.contains "." s).

(** A format that [with_suffix] accepts as an extension. *)
Definition valid_format (f : string) : bool :=
  negb (String.eqb f "") && negb (PyStr.contains "/" f).

(** The tokens that each optional input contributes. *)
Definition year_tokens (ns : name_segments) : list string :=
  if truthy (seg_year ns) then [py_str (seg_year ns)] else [].

Definition vol_tokens (ns : name_segments) : list string :=
  if truthy (seg_vol ns) then ["vol_" +:+ py_str (seg_vol ns)] else [].

Definition part_tokens (part : option string) : list string :=
  match part with
  | Some p => if String.eqb p "" then [] else [p]
  | None => []
  end.

Definition num_tokens (num : option string) : list string :=
  match num with
  | Some n => if String.eqb n "" then [] else [pad_num n]
  | None => []
  end.

(** The string that [create_filename] hands to [Path]. *)
Definition stem (ns : name_segments) (part num : option string)
  (format : string) : string :=
  PyStr.join "-" (if String.eqb format "log" then base_segments ns
                  else image_segments ns part num).

(** A leading ['+'] or ['-']. *)
Definition has_sign (s : string) : bool :=
  match s with
  | String c _ => Ascii.eqb c "+" || Ascii.eqb c "-"
  | EmptyString => false
  end.

(** No fetch recorded in [t] raised. *)
Definition quiet (w : world) (t : list event) : Prop :=
  forall url, In (Fetch url) t -> is_ok (requests_get w url) = true.

(** A run in which a fetch that raises is the last thing that happens, and
    its exception is the outcome of the run. *)
Definition fail_fast {A : Type} (w : world) (m : run A) : Prop :=
  match m with
  | (t, Ok _) => quiet w t
  | (t, Raise e) =>
      quiet w t
      \/ exists t0 url,
           t = t0 ++ [Fetch url] /\ quiet w t0 /\ requests_get w url = Raise e
  end.

(** ** Inputs used in the examples *)

Definition scenario_segments : name_segments :=
  mkSegments ["atlas"; "ward1"] (PyInt 1925) (PyStr "2").

Definition loc_config : config :=
  mkConfig "https" "tile" "loc.gov"
    (<["tif" := "tif"]> (<["jpg" := "image-services/iiif/service"]> ∅)).

Definition tif_options : parser :=
  mkParser "maps" "tif" "full" (PyInt 25) (PyInt 0) "default".

Definition jpg_options : parser :=
  mkParser "maps" "jpg" "full" (PyInt 25) (PyInt 0) "default".

Definition png_options : parser :=
  mkParser "maps" "png" "full" (PyInt 25) (PyInt 0) "default".

Definition atlas_maps (stop : Z) : map_config :=
  mkMapConfig "g3290m.gct00033" "https://www.loc.gov/item/2010587004/manifest.json"
    scenario_segments
    [mkPathSegment "g3290" "ct000" (Some "a") 1 stop 3].

(** Every request is answered with the status 404; the writer stores what it
    is given. *)
Definition not_found_world : world :=
  mkWorld (fun _ => Ok (mkResponse 404 "Not Found")) (fun _ _ => Ok tt).

(** The second request cannot be delivered. *)
Definition broken_link_world : world :=
  mkWorld
    (fun url =>
       if String.eqb url
            "https://tile.loc.gov/image-services/iiif/service:g3290:ct000002/full/pct:25/0/default.jpg"
       then Raise (ConnectionError url)
       else Ok (mkResponse 200 "II*"))
    (fun _ _ => Ok tt).

(** ** Notions used for the further properties *)

(** Every character of [s] satisfies [P]. *)
Fixpoint forall_chars (P : ascii -> bool) (s : string) : bool :=
  match s with
  | EmptyString => true
  | String a s' => P a && forall_chars P s'
  end.

(** A decimal digit or the minus sign: the characters of [str(i)]. *)
Definition token_char (c : ascii) : bool :=
  PyStr.contains c "0123456789-".

(** The integer that a token denotes: an optional ['-'], then decimal
    digits, leading zeros allowed. *)
Definition int_of_token (s : string) : option Z :=
  option_map Z.of_int (NilEmpty.int_of_string s).

(** The (segment, index) pairs of a collection, in the order of the loops
    of lines 153 and 160. *)
Definition work_items (mc : map_config) : list (path_segment * Z) :=
  List.flat_map
    (fun path => List.map (pair path) (range (index_start path) (index_stop path)))
    (path_segments mc).

(** The URLs requested, the files written and the lines logged in a trace,
    each in the order of the trace. *)
Fixpoint fetched (t : list event) : list string :=
  match t with
  | [] => []
  | Fetch url :: t' => url :: fetched t'
  | _ :: t' => fetched t'
  end.

Fixpoint written (t : list event) : list (PurePath * response) :=
  match t with
  | [] => []
  | FileWrite filepath r :: t' => (filepath, r) :: written t'
  | _ :: t' => written t'
  end.

Fixpoint logged (t : list event) : list string :=
  match t with
  | [] => []
  | LogInfo msg :: t' => msg :: logged t'
  | _ :: t' => logged t'
  end.

(** No segment of [l] holds a ['.'] or a ['/']. *)
Definition clean_segments (l : list string) : bool :=
  List.forallb
    (fun s => negb (PyStr.contains "." s) && negb (PyStr.contains "/" s)) l.

(** The URL and the file path that the loop derives for one work item. *)
Definition item_token (item : path_segment * Z) : string :=
  index_token (zfill_width (fst item)) (snd item).

Definition item_url (p : parser) (c : config) (item : path_segment * Z)
  : result string :=
  create_url p c (gmd (fst item)) (id_prefix (fst item)) (item_token item).

Definition item_filepath (cwd : PurePath) (p : parser) (ns : name_segments)
  (item : path_segment * Z) : result PurePath :=
  let* filename :=
    create_filename ns (part (fst item)) (Some (item_token item)) (format p) in
  Ok (create_filepath cwd (output p) filename).

(** The body of the loop for one work item. *)
Definition retrieve_item (w : world) (cwd : PurePath) (p : parser) (c : config)
  (ns : name_segments) (item : path_segment * Z) : run unit :=
  retrieve w cwd p c ns (fst item) (snd item).

(** ** Facts about strings *)

Section StringFacts.

Lemma app_nil_r (s : string) : s +:+ "" = s.
Proof. induction s as [|a s IH]; simpl; [reflexivity | now rewrite IH]. Qed.

Lemma app_assoc (a b c : string) : (a +:+ b) +:+ c = a +:+ (b +:+ c).
Proof. induction a as [|x a IH]; simpl; [reflexivity | now rewrite IH]. Qed.

Lemma length_app (a b : string) :
  String.length (a +:+ b) = (String.length a + String.length b)%nat.
Proof. induction a as [|x a IH]; simpl; [reflexivity | now rewrite IH]. Qed.

Lemma contains_app (c : ascii) (a b : string) :
  PyStr.contains c (a +:+ b) = PyStr.contains c a || PyStr.contains c b.
Proof.
  induction a as [|x a IH]; simpl; [reflexivity|].
  rewrite IH. now rewrite orb_assoc.
Qed.

Lemma split_without_sep (c : ascii) (s : string) :
  PyStr.contains c s = false -> PyStr.split c s = [s].
Proof.
  induction s as [|a s IH]; simpl; intros H; [reflexivity|].
  apply orb_false_iff in H as [Ha Hs].
  rewrite Ha, (IH Hs). reflexivity.
Qed.

Lemma rfind_from_absent (c : ascii) (s : string) (i : Z) :
  PyStr.contains c s = false -> PyStr.rfind_from c s i = -1.
Proof.
  revert i. induction s as [|a s IH]; simpl; intros i H; [reflexivity|].
  apply orb_false_iff in H as [Ha Hs].
  rewrite (IH _ Hs), Ha. reflexivity.
Qed.

Lemma prefix_app (a b : string) : String.prefix a (a +:+ b) = true.
Proof.
  induction a as [|x a IH]; simpl.
  - destruct b; reflexivity.
  - destruct (ascii_dec x x) as [_|N]; [exact IH | now destruct N].
Qed.

Lemma occurrences_app_r (pat a b : string) :
  (occurrences pat b <= occurrences pat (a +:+ b))%nat.
Proof.
  induction a as [|x a IH]; simpl; [apply Nat.le_refl|].
  apply Nat.le_trans with (1 := IH). apply Nat.le_add_l.
Qed.

Lemma occurrences_at_head (c : ascii) (pat rest : string) :
  (1 <= occurrences (String c pat) (String c pat +:+ rest))%nat.
Proof.
  change (String c pat +:+ rest) with (String c (pat +:+ rest)).
  cbn [occurrences].
  change (String c (pat +:+ rest)) with (String c pat +:+ rest).
  rewrite prefix_app. apply Nat.le_add_r.
Qed.

Lemma occurrences_twice (c : ascii) (pat pre mid post : string) :
  (2 <= occurrences (String c pat)
          (pre +:+ String c pat +:+ mid +:+ String c pat +:+ post))%nat.
Proof.
  eapply Nat.le_trans; [|apply occurrences_app_r].
  change (String c pat +:+ mid +:+ String c pat +:+ post)
    with (String c (pat +:+ mid +:+ String c pat +:+ post)).
  cbn [occurrences].
  change (String c (pat +:+ mid +:+ String c pat +:+ post))
    with (String c pat +:+ (mid +:+ String c pat +:+ post)).
  rewrite prefix_app.
  assert (H : (1 <= occurrences (String c pat)
                      (pat +:+ mid +:+ String c pat +:+ post))%nat).
  { eapply Nat.le_trans; [|apply occurrences_app_r].
    eapply Nat.le_trans; [|apply occurrences_app_r].
    apply occurrences_at_head. }
  lia.
Qed.

Lemma count_char_app (c : ascii) (a b : string) :
  count_char c (a +:+ b) = (count_char c a + count_char c b)%nat.
Proof.
  induction a as [|x a IH]; simpl; [reflexivity|]. rewrite IH. lia.
Qed.

Lemma contains_replace (a b : ascii) (s : string) :
  a <> b -> PyStr.contains a (PyStr.replace a b s) = false.
Proof.
  intros Hab. induction s as [|x s IH]; simpl; [reflexivity|].
  rewrite IH, orb_false_r.
  destruct (Ascii.eqb x a) eqn:E.
  - apply Ascii.eqb_neq. congruence.
  - exact E.
Qed.

Lemma length_replace (a b : ascii) (s : string) :
  String.length (PyStr.replace a b s) = String.length s.
Proof. induction s as [|x s IH]; simpl; [reflexivity | now rewrite IH]. Qed.

Lemma length_zeros (n : nat) : String.length (PyStr.zeros n) = n.
Proof. induction n as [|n IH]; simpl; [reflexivity | now rewrite IH]. Qed.

End StringFacts.

(** ** Facts about [join] *)

Section JoinFacts.

Variable sep : string.

Lemma join_cons (x y : string) (l : list string) :
  PyStr.join sep (x :: y :: l) = x +:+ sep +:+ PyStr.join sep (y :: l).
Proof. reflexivity. Qed.

Lemma join_app_r (l1 l2 : list string) :
  l2 <> [] -> exists pre, PyStr.join sep (l1 ++ l2) = pre +:+ PyStr.join sep l2.
Proof.
  intros Hne. induction l1 as [|x l1 [pre IH]].
  - exists "". reflexivity.
  - exists (x +:+ sep +:+ pre).
    destruct (l1 ++ l2) as [|y l] eqn:E.
    + apply app_eq_nil in E as [_ E]. contradiction.
    + change ((x :: l1) ++ l2) with (x :: (l1 ++ l2)).
      rewrite E, join_cons, IH, !app_assoc. reflexivity.
Qed.

Lemma join_app_l (l1 l2 : list string) :
  exists post, PyStr.join sep (l1 ++ l2) = PyStr.join sep l1 +:+ post.
Proof.
  induction l1 as [|x l1 [post IH]].
  - exists (PyStr.join sep l2). reflexivity.
  - destruct l1 as [|y l1].
    + destruct l2 as [|z l2].
      * exists "". simpl. now rewrite app_nil_r.
      * exists (sep +:+ PyStr.join sep (z :: l2)). reflexivity.
    + exists post.
      change ((x :: y :: l1) ++ l2) with (x :: y :: (l1 ++ l2)).
      rewrite !join_cons.
      change (y :: l1 ++ l2) with ((y :: l1) ++ l2).
      rewrite IH, !app_assoc. reflexivity.
Qed.

Lemma join_snoc (l : list string) (x : string) :
  exists pre, PyStr.join sep (l ++ [x]) = pre +:+ x.
Proof. apply (join_app_r l [x]). discriminate. Qed.

Lemma join_twice (l1 l2 : list string) (t : string) :
  exists pre post,
    PyStr.join sep (l1 ++ t :: t :: l2) = pre +:+ t +:+ sep +:+ t +:+ post.
Proof.
  destruct (join_app_r l1 (t :: t :: l2)) as [pre Hpre]; [discriminate|].
  destruct (join_app_l [t] l2) as [post Hpost].
  exists pre, post.
  rewrite Hpre, join_cons.
  change (t :: l2) with ([t] ++ l2). rewrite Hpost. reflexivity.
Qed.

End JoinFacts.

(** ** Facts about paths *)

Section PathFacts.

Lemma to_str_parts (p : PurePath) :
  parts p <> [] -> to_str p = root p +:+ PyStr.join "/" (parts p).
Proof.
  unfold to_str. intros H.
  destruct (root p); destruct (parts p); try reflexivity; contradiction.
Qed.

Lemma to_str_single (x : string) : to_str (mkPath "" [x]) = x.
Proof. reflexivity. Qed.

Lemma of_str_plain (s : string) : plain s = true -> of_str s = mkPath "" [s].
Proof.
  unfold plain. intros H.
  apply andb_true_iff in H as [H Hdot]. apply andb_true_iff in H as [Hne Hsl].
  apply negb_true_iff in Hne, Hsl, Hdot.
  unfold of_str, splitroot.
  destruct s as [|c s]; [discriminate|].
  simpl in Hsl. apply orb_false_iff in Hsl as [Hc Hs].
  unfold sep at 1. rewrite Hc.
  rewrite split_without_sep by (simpl; unfold sep; now rewrite Hc, Hs).
  assert (Hd : String.eqb (String c s) "." = false).
  { apply String.eqb_neq. intros E. rewrite E in Hdot. discriminate. }
  cbn [List.filter]. unfold keep_component. rewrite Hne, Hd. reflexivity.
Qed.


Lemma with_suffix_plain (s f : string) :
  plain s = true -> valid_format f = true ->
  with_suffix (of_str s) ("." +:+ f) = Ok (mkPath "" [s +:+ "." +:+ f]).
Proof.
  intros Hp Hf. rewrite (of_str_plain s Hp).
  unfold plain in Hp. unfold valid_format in Hf.
  apply andb_true_iff in Hp as [Hp Hdot]. apply andb_true_iff in Hp as [Hne Hsl].
  apply andb_true_iff in Hf as [Hfne Hfsl].
  apply negb_true_iff in Hne, Hdot, Hfne, Hfsl.
  unfold with_suffix, suffix, name. simpl.
  unfold sep. rewrite Hfsl. simpl.
  destruct f as [|c f]; [discriminate|]. simpl.
  rewrite Hne. unfold PyStr.rfind.
  rewrite rfind_from_absent by exact Hdot. simpl. reflexivity.
Qed.

Lemma with_suffix_ok (p q : PurePath) (sfx : string) :
  with_suffix p sfx = Ok q ->
  root q = root p /\ parts q <> [] /\
  ends_with sfx (name q) /\ ends_with sfx (to_str q).
Proof.
  unfold with_suffix. intros H.
  destruct (PyStr.contains sep sfx); [discriminate|].
  destruct (_ || _); [discriminate|].
  destruct (String.eqb (name p) ""); [discriminate|].
  injection H as <-. cbn [root parts].
  set (n' := if String.eqb (suffix p) "" then _ else _).
  assert (Hn : ends_with sfx n').
  { unfold n'. destruct (String.eqb (suffix p) ""); eexists; reflexivity. }
  assert (Hne : List.removelast (parts p) ++ [n'] <> []).
  { intros E. apply app_eq_nil in E as [_ E]. discriminate. }
  repeat split; try assumption.
  - unfold name. cbn [parts]. now rewrite last_last.
  - rewrite to_str_parts by exact Hne. cbn [root parts].
    destruct (join_snoc "/" (List.removelast (parts p)) n') as [pre Hpre].
    destruct Hn as [x Hx]. rewrite Hpre, Hx.
    exists (root p +:+ pre +:+ x). now rewrite !app_assoc.
Qed.

End PathFacts.

(** ** Facts about [create_filename] *)

Section FilenameFacts.

Lemma base_segments_tokens (ns : name_segments) :
  base_segments ns = seg_name ns ++ year_tokens ns ++ vol_tokens ns.
Proof.
  unfold base_segments, year_tokens, vol_tokens.
  destruct (truthy (seg_year ns)), (truthy (seg_vol ns));
    now rewrite <- ?List.app_assoc, ?List.app_nil_r.
Qed.

Lemma image_segments_tokens (ns : name_segments) (part num : option string) :
  image_segments ns part num =
    seg_name ns ++ year_tokens ns ++ vol_tokens ns ++ vol_tokens ns
      ++ part_tokens part ++ num_tokens num.
Proof.
  unfold image_segments. rewrite base_segments_tokens.
  unfold vol_tokens, part_tokens, num_tokens.
  destruct (truthy (seg_vol ns)); destruct part as [pt|]; destruct num as [n|];
    cbn [truthy];
    try destruct (String.eqb pt ""); try destruct (String.eqb n "");
    cbn [negb]; now rewrite <- ?List.app_assoc, ?List.app_nil_r.
Qed.

Lemma create_filename_stem ns part num format :
  create_filename ns part num format =
    with_suffix (of_str (stem ns part num format)) ("." +:+ format).
Proof.
  unfold create_filename, stem. now destruct (String.eqb format "log").
Qed.

Lemma create_filename_plain ns part num format :
  plain (stem ns part num format) = true -> valid_format format = true ->
  create_filename ns part num format =
    Ok (mkPath "" [stem ns part num format +:+ "." +:+ format]).
Proof.
  intros Hp Hf. rewrite create_filename_stem. now apply with_suffix_plain.
Qed.

Lemma stem_image ns part num format :
  format <> "log" ->
  stem ns part num format = PyStr.join "-" (image_segments ns part num).
Proof.
  intros H. unfold stem. apply String.eqb_neq in H. now rewrite H.
Qed.


Lemma stem_log ns part num :
  stem ns part num "log" = PyStr.join "-" (base_segments ns).
Proof. reflexivity. Qed.

End FilenameFacts.

(** ** Properties of the Filename Builder *)

(** C1, as stated, fails: with the volume ["2.5"] the text after the last
    ['.'] of the joined segments is taken for an extension and replaced, so
    the second volume token is cut short (and part and index are lost).
    Likewise a volume that ends in ['/'] loses the second ['/'], and the
    empty format, which is not ["log"], is refused as an extension. *)
Lemma volume_token_twice_counterexample :
  create_filename (mkSegments ["atlas"; "ward1"] (PyInt 1925) (PyStr "2.5"))
                  (Some "a") (Some "7") "jpg"
    = Ok (mkPath "" ["atlas-ward1-1925-vol_2.5-vol_2.jpg"])
  /\ occurrences "vol_2.5" "atlas-ward1-1925-vol_2.5-vol_2.jpg" = 1%nat
  /\ create_filename (mkSegments ["atlas"] PyNone (PyStr "2/")) None None "jpg"
     = Ok (mkPath "" ["atlas-vol_2"; "-vol_2.jpg"])
  /\ occurrences "vol_2/" (to_str (mkPath "" ["atlas-vol_2"; "-vol_2.jpg"])) = 1%nat
  /\ create_filename scenario_segments (Some "a") (Some "7") ""
     = Raise (ValueError "Invalid suffix").
Proof. repeat split; vm_compute; reflexivity. Qed.

(** C1 (amended): the scenario yields exactly
    [atlas-ward1-1925-vol_2-vol_2-a-0007.jpg]; and for every non-log format
    that is a valid extension, with a volume present and joined segments that
    contain no ['.'] and no ['/'], the file name is the joined segments
    followed by ['.'] and the format, with the [vol_] token occurring twice,
    the two occurrences next to each other. *)
Theorem volume_token_twice :
  create_filename scenario_segments (Some "a") (Some "7") "jpg"
    = Ok (mkPath "" ["atlas-ward1-1925-vol_2-vol_2-a-0007.jpg"])
  /\ forall ns part num format,
      format <> "log" ->
      truthy (seg_vol ns) = true ->
      plain (PyStr.join "-" (image_segments ns part num)) = true ->
      valid_format format = true ->
      let tok := "vol_" +:+ py_str (seg_vol ns) in
      exists p,
        create_filename ns part num format = Ok p
        /\ to_str p = PyStr.join "-" (image_segments ns part num) +:+ "." +:+ format
        /\ image_segments ns part num =
             (seg_name ns ++ year_tokens ns)
               ++ tok :: tok :: part_tokens part ++ num_tokens num
        /\ (2 <= occurrences tok (to_str p))%nat.
Proof.
  split; [vm_compute; reflexivity|].
  intros ns part num format Hlog Hvol Hplain Hfmt tok.
  assert (Hseg : image_segments ns part num =
            (seg_name ns ++ year_tokens ns)
              ++ tok :: tok :: part_tokens part ++ num_tokens num).
  { rewrite image_segments_tokens. unfold vol_tokens. rewrite Hvol.
    rewrite <- List.app_assoc. reflexivity. }
  rewrite <- (stem_image ns part num format Hlog) in Hplain.
  eexists. split; [apply create_filename_plain; assumption|].
  rewrite (stem_image ns part num format Hlog).
  split; [reflexivity|]. split; [exact Hseg|].
  unfold to_str. cbn [root parts PyStr.join String.concat].
  rewrite Hseg.
  destruct (join_twice "-" (seg_name ns ++ year_tokens ns)
              (part_tokens part ++ num_tokens num) tok) as (pre & post & E).
  rewrite E, !app_assoc, <- (app_assoc "" pre).
  change tok with (String "v" ("ol_" +:+ py_str (seg_vol ns))).
  apply occurrences_twice.
Qed.

Lemma volume_token_twice_witness :
  "jpg" <> "log"
  /\ truthy (seg_vol scenario_segments) = true
  /\ plain (PyStr.join "-" (image_segments scenario_segments (Some "a") (Some "7"))) = true
  /\ valid_format "jpg" = true
  /\ exists p,
       create_filename scenario_segments (Some "a") (Some "7") "jpg" = Ok p
       /\ to_str p = PyStr.join "-" (image_segments scenario_segments (Some "a") (Some "7")) +:+ "." +:+ "jpg"
       /\ image_segments scenario_segments (Some "a") (Some "7") =
            (["atlas"; "ward1"] ++ ["1925"]) ++ ["vol_2"; "vol_2"; "a"; "0007"]
       /\ (2 <= occurrences "vol_2" (to_str p))%nat.
Proof.
  split; [discriminate|]. split; [reflexivity|].
  split; [reflexivity|]. split; [reflexivity|].
  apply (proj2 volume_token_twice scenario_segments (Some "a") (Some "7") "jpg");
    [discriminate | reflexivity | reflexivity | reflexivity].
Defined.

(** C5, as stated, fails: the log file name of a collection whose volume is
    ["2.5"] is not the joined segments followed by [.log], and the volume
    token does not occur in it.  With no name, year or volume there is no
    file name at all. *)
Lemma log_filename_counterexample :
  PyStr.join "-" (base_segments (mkSegments ["atlas"] (PyInt 1925) (PyStr "2.5")))
    = "atlas-1925-vol_2.5"
  /\ create_filename (mkSegments ["atlas"] (PyInt 1925) (PyStr "2.5"))
                     None None "log"
     = Ok (mkPath "" ["atlas-1925-vol_2.log"])
  /\ occurrences "vol_2.5" "atlas-1925-vol_2.log" = 0%nat
  /\ create_filename (mkSegments [] PyNone PyNone) None None "log"
     = Raise (ValueError "has an empty name").
Proof. repeat split; vm_compute; reflexivity. Qed.

(** C5 (amended): with the format ["log"], [create_filename] ignores part and
    index entirely (any two calls that differ only in them give the same
    result), the volume token is appended once, and a returned name ends
    with [.log]; when the joined name/year/volume segments are non-empty and
    contain no ['.'] and no ['/'], the result is the joined segments followed
    by [.log]. *)
Theorem log_filename_ignores_part_and_index :
  forall ns part num part' num',
    create_filename ns part num "log" = create_filename ns part' num' "log"
    /\ base_segments ns = seg_name ns ++ year_tokens ns ++ vol_tokens ns
    /\ (forall p, create_filename ns part num "log" = Ok p ->
          ends_with ".log" (to_str p))
    /\ (plain (PyStr.join "-" (base_segments ns)) = true ->
        create_filename ns part num "log"
          = Ok (mkPath "" [PyStr.join "-" (base_segments ns) +:+ ".log"])).
Proof.
  intros ns part num part' num'.
  split; [reflexivity|]. split; [apply base_segments_tokens|]. split.
  - intros p Hp. rewrite create_filename_stem in Hp.
    apply with_suffix_ok in Hp. apply Hp.
  - intros Hplain.
    apply (create_filename_plain ns part num "log"); [exact Hplain | reflexivity].
Qed.

Lemma log_filename_ignores_part_and_index_witness :
  plain (PyStr.join "-" (base_segments scenario_segments)) = true
  /\ create_filename scenario_segments (Some "a") (Some "7") "log"
     = create_filename scenario_segments None None "log"
  /\ create_filename scenario_segments (Some "a") (Some "7") "log"
     = Ok (mkPath "" [PyStr.join "-" (base_segments scenario_segments) +:+ ".log"])
  /\ to_str (mkPath "" [PyStr.join "-" (base_segments scenario_segments) +:+ ".log"])
     = "atlas-ward1-1925-vol_2.log"
  /\ ends_with ".log" "atlas-ward1-1925-vol_2.log".
Proof.
  destruct (log_filename_ignores_part_and_index
              scenario_segments (Some "a") (Some "7") None None)
    as (Hsame & _ & Hend & Hplain).
  split; [reflexivity|]. split; [exact Hsame|].
  split; [apply Hplain; reflexivity|]. split; [reflexivity|].
  exact (Hend (mkPath "" ["atlas-ward1-1925-vol_2.log"]) (Hplain eq_refl)).
Defined.




(** C9, as stated, fails: a ['.'] inside a name segment makes the rest of
    the joined segments an extension, which is replaced.  A leading ["./"]
    is dropped when the path is parsed, and without any segment, or with a
    format that is no valid extension, there is no file name at all. *)
Lemma filename_prefix_counterexample :
  create_filename (mkSegments ["st.louis"] (PyInt 1925) PyNone)
                  None (Some "7") "jpg"
    = Ok (mkPath "" ["st.jpg"])
  /\ String.prefix (PyStr.join "-" ["st.louis"]) "st.jpg" = false
  /\ create_filename (mkSegments ["./atlas"] PyNone PyNone) None (Some "7") "jpg"
     = Ok (mkPath "" ["atlas-0007.jpg"])
  /\ String.prefix (PyStr.join "-" ["./atlas"]) "atlas-0007.jpg" = false
  /\ create_filename (mkSegments [] PyNone PyNone) None None "jpg"
     = Raise (ValueError "has an empty name")
  /\ create_filename scenario_segments (Some "a") (Some "7") "tar/gz"
     = Raise (ValueError "Invalid suffix").
Proof. repeat split; vm_compute; reflexivity. Qed.

(** C9 (amended): for every non-log format, every file name that is returned
    ends with ['.'] followed by the format; and when the format is a valid
    extension and the joined segments are non-empty and contain no ['.'] and
    no ['/'], a file name is returned, it is the joined segments followed by
    ['.'] and the format, and it starts with the name segments, in their
    order, joined by ['-']. *)
Theorem filename_extension_and_prefix :
  forall ns part num format,
    format <> "log" ->
    (forall p, create_filename ns part num format = Ok p ->
       ends_with ("." +:+ format) (to_str p))
    /\ (plain (PyStr.join "-" (image_segments ns part num)) = true ->
        valid_format format = true ->
        exists p,
          create_filename ns part num format = Ok p
          /\ to_str p = PyStr.join "-" (image_segments ns part num) +:+ "." +:+ format
          /\ String.prefix (PyStr.join "-" (seg_name ns)) (to_str p) = true).
Proof.
  intros ns part num format Hlog. split.
  - intros p Hp. rewrite create_filename_stem in Hp.
    apply with_suffix_ok in Hp. apply Hp.
  - intros Hplain Hfmt.
    rewrite <- (stem_image ns part num format Hlog) in Hplain.
    eexists. split; [apply create_filename_plain; assumption|].
    rewrite (stem_image ns part num format Hlog).
    split; [reflexivity|].
    rewrite to_str_single, image_segments_tokens.
    destruct (join_app_l "-" (seg_name ns)
                (year_tokens ns ++ vol_tokens ns ++ vol_tokens ns
                   ++ part_tokens part ++ num_tokens num)) as [post E].
    rewrite E, app_assoc. apply prefix_app.
Qed.

Lemma filename_extension_and_prefix_witness :
  "jpg" <> "log"
  /\ plain (PyStr.join "-" (image_segments scenario_segments (Some "a") (Some "7"))) = true
  /\ valid_format "jpg" = true
  /\ ends_with ".jpg" "atlas-ward1-1925-vol_2-vol_2-a-0007.jpg"
  /\ exists p,
       create_filename scenario_segments (Some "a") (Some "7") "jpg" = Ok p
       /\ to_str p = PyStr.join "-" (image_segments scenario_segments (Some "a") (Some "7"))
                       +:+ "." +:+ "jpg"
       /\ String.prefix (PyStr.join "-" ["atlas"; "ward1"]) (to_str p) = true.
Proof.
  assert (Hjpg : "jpg" <> "log") by discriminate.
  destruct (filename_extension_and_prefix
              scenario_segments (Some "a") (Some "7") "jpg" Hjpg) as [Hend Hpre].
  split; [exact Hjpg|]. split; [reflexivity|]. split; [reflexivity|].
  split; [exact (Hend (mkPath "" ["atlas-ward1-1925-vol_2-vol_2-a-0007.jpg"]) eq_refl)|].
  exact (Hpre eq_refl eq_refl).
Defined.

(** C10: falsy optional inputs count as absent.  An empty part, an empty
    index, the year 0 and an empty volume each give the result of the call
    in which that input is missing; no token is appended for any of them, and
    the empty index is not turned into ["0000"]. *)
Theorem falsy_inputs_are_absent :
  forall names year vol part num format,
    create_filename (mkSegments names year vol) (Some "") num format
      = create_filename (mkSegments names year vol) None num format
    /\ create_filename (mkSegments names year vol) part (Some "") format
      = create_filename (mkSegments names year vol) part None format
    /\ create_filename (mkSegments names (PyInt 0) vol) part num format
      = create_filename (mkSegments names PyNone vol) part num format
    /\ create_filename (mkSegments names year (PyStr "")) part num format
      = create_filename (mkSegments names year PyNone) part num format
    /\ image_segments (mkSegments names (PyInt 0) (PyStr "")) (Some "") (Some "")
      = names
    /\ base_segments (mkSegments names (PyInt 0) (PyStr "")) = names
    /\ image_segments (mkSegments names year vol) part (Some "")
      = image_segments (mkSegments names year vol) part None
    /\ ~ In "0000" (num_tokens (Some ""))
    /\ create_filename (mkSegments ["atlas"] (PyInt 0) (PyStr "")) (Some "") (Some "") "jpg"
      = Ok (mkPath "" ["atlas.jpg"]).
Proof.
  intros names year vol part num format.
  repeat split; try reflexivity.
  intros [].
Qed.

(** ** Properties of the URL Builder *)

Section UrlFacts.

Lemma is_raw_format_In (f : string) :
  is_raw_format f = true <-> In f raw_formats.
Proof.
  unfold is_raw_format. rewrite List.existsb_exists. split.
  - intros (x & Hx & E). apply String.eqb_eq in E. now subst x.
  - intros H. exists f. split; [exact H | apply String.eqb_refl].
Qed.


Lemma getitem_Some (d : gmap string string) (k v : string) :
  d !! k = Some v -> getitem d k = Ok v.
Proof. unfold getitem. now intros ->. Qed.

Lemma getitem_None (d : gmap string string) (k : string) :
  d !! k = None -> getitem d k = Raise (KeyError k).
Proof. unfold getitem. now intros ->. Qed.

End UrlFacts.

(** C3: for a format among gif, jp2 and tif that has a service path,
    [create_url] returns exactly
    protocol://subdomain.domain/service-path/gmd'/id_prefix index.format,
    where gmd' is gmd with every [':'] replaced by ['/']; gmd' holds no
    [':'], so every [':'] of the URL comes from another field or from the
    ["://"] after the protocol. *)
Theorem raw_format_url :
  forall p c gmd id_prefix num sp,
    In (format p) raw_formats ->
    service_path c !! format p = Some sp ->
    create_url p c gmd id_prefix num
      = Ok (protocol c +:+ "://" +:+ subdomain c +:+ "." +:+ domain c
            +:+ "/" +:+ sp +:+ "/" +:+ PyStr.replace ":" "/" gmd
            +:+ "/" +:+ id_prefix +:+ num +:+ "." +:+ format p)
    /\ PyStr.contains ":" (PyStr.replace ":" "/" gmd) = false
    /\ String.length (PyStr.replace ":" "/" gmd) = String.length gmd
    /\ forall url, create_url p c gmd id_prefix num = Ok url ->
         count_char ":" url
         = (count_char ":" (protocol c) + 1 + count_char ":" (subdomain c)
            + count_char ":" (domain c) + count_char ":" sp
            + count_char ":" id_prefix + count_char ":" num
            + count_char ":" (format p))%nat.
Proof.
  intros p c gmd id_prefix num sp Hraw Hsp.
  assert (Hurl : create_url p c gmd id_prefix num
      = Ok (protocol c +:+ "://" +:+ subdomain c +:+ "." +:+ domain c
            +:+ "/" +:+ sp +:+ "/" +:+ PyStr.replace ":" "/" gmd
            +:+ "/" +:+ id_prefix +:+ num +:+ "." +:+ format p)).
  { unfold create_url. apply is_raw_format_In in Hraw. rewrite Hraw.
    rewrite (getitem_Some _ _ _ Hsp). cbn [bind].
    unfold PyStr.join. cbn [String.concat].
    rewrite !app_assoc. reflexivity. }
  assert (Hgmd : PyStr.contains ":" (PyStr.replace ":" "/" gmd) = false).
  { apply contains_replace. discriminate. }
  split; [exact Hurl|]. split; [exact Hgmd|]. split; [apply length_replace|].
  intros url E. rewrite Hurl in E. injection E as <-.
  assert (H0 : count_char ":" (PyStr.replace ":" "/" gmd) = 0%nat).
  { clear -gmd. induction gmd as [|x s IH]; [reflexivity|].
    cbn [PyStr.replace count_char]. rewrite IH.
    destruct (Ascii.eqb x ":") eqn:E; [reflexivity | now rewrite E]. }
  repeat first [rewrite count_char_app | progress simpl].
  rewrite H0. lia.
Qed.

Lemma raw_format_url_witness :
  In (format tif_options) raw_formats
  /\ service_path loc_config !! format tif_options = Some "tif"
  /\ create_url tif_options loc_config "g3290:g3290" "ct000" "003"
     = Ok "https://tile.loc.gov/tif/g3290/g3290/ct000003.tif".
Proof.
  assert (Hraw : In (format tif_options) raw_formats)
    by (right; right; left; reflexivity).
  assert (Hsp : service_path loc_config !! format tif_options = Some "tif")
    by (vm_compute; reflexivity).
  split; [exact Hraw|]. split; [exact Hsp|].
  exact (proj1 (raw_format_url tif_options loc_config
                  "g3290:g3290" "ct000" "003" "tif" Hraw Hsp)).
Defined.



(** C7: for a format that the service-path mapping does not hold,
    [create_url] raises the [KeyError] of the failed lookup and returns no
    URL, whichever scheme the format selects. *)
Theorem unconfigured_format_raises :
  forall p c gmd id_prefix num,
    service_path c !! format p = None ->
    create_url p c gmd id_prefix num = Raise (KeyError (format p))
    /\ forall url, create_url p c gmd id_prefix num <> Ok url.
Proof.
  intros p c gmd id_prefix num Hnone.
  assert (H : create_url p c gmd id_prefix num = Raise (KeyError (format p))).
  { unfold create_url. rewrite (getitem_None _ _ Hnone).
    now destruct (is_raw_format (format p)). }
  split; [exact H|]. intros url E. rewrite H in E. discriminate.
Qed.

Lemma unconfigured_format_raises_witness :
  service_path loc_config !! format png_options = None
  /\ create_url png_options loc_config "g3290:g3290" "ct000" "003"
     = Raise (KeyError "png").
Proof.
  assert (Hnone : service_path loc_config !! format png_options = None)
    by (vm_compute; reflexivity).
  split; [exact Hnone|].
  exact (proj1 (unconfigured_format_raises png_options loc_config
                  "g3290:g3290" "ct000" "003" Hnone)).
Defined.

(** ** Properties of the Path Resolver *)

Section FilepathFacts.

Lemma of_str_without_sep (s : string) :
  PyStr.contains "/" s = false ->
  of_str s = mkPath "" [s] \/ of_str s = mkPath "" [].
Proof.
  intros H. unfold of_str, splitroot.
  destruct s as [|c s]; [right; reflexivity|].
  pose proof H as H'. simpl in H'. apply orb_false_iff in H' as [Hc _].
  unfold sep. rewrite Hc, !split_without_sep by exact H.
  cbn [List.filter].
  destruct (keep_component (String c s)); [left | right]; reflexivity.
Qed.

Lemma with_suffix_single (s sfx : string) (q : PurePath) :
  PyStr.contains "/" s = false ->
  with_suffix (of_str s) sfx = Ok q ->
  exists n, q = mkPath "" [n].
Proof.
  intros Hs Hq. unfold with_suffix in Hq.
  destruct (PyStr.contains sep sfx); [discriminate|].
  destruct (_ || _); [discriminate|].
  destruct (of_str_without_sep s Hs) as [E|E]; rewrite E in Hq;
    unfold name in Hq; cbn [parts root List.last List.removelast] in Hq.
  - destruct (String.eqb s ""); [discriminate|].
    injection Hq as <-. eexists. reflexivity.
  - discriminate.
Qed.

Lemma joinpath_absolute (p q : PurePath) :
  is_absolute p = true -> is_absolute (joinpath p q) = true.
Proof.
  unfold joinpath, is_absolute. intros Hp.
  destruct (String.eqb (root q) "") eqn:E; [exact Hp | now rewrite E].
Qed.

Lemma joinpath_name (p q : PurePath) :
  parts q <> [] -> name (joinpath p q) = name q.
Proof.
  unfold joinpath, name. intros Hq.
  destruct (String.eqb (root q) ""); [|reflexivity].
  cbn [parts]. destruct (exists_last Hq) as (l & x & ->).
  now rewrite List.app_assoc, !last_last.
Qed.

End FilepathFacts.

(** C8, as stated, fails: an absolute output directory discards the current
    working directory, so the path is not the concatenation of the three;
    and a ['/'] in a name segment splits the file name into several
    components, of which the path ends with the last only. *)
Lemma absolute_output_counterexample :
  create_filename scenario_segments (Some "a") (Some "7") "jpg"
    = Ok (mkPath "" ["atlas-ward1-1925-vol_2-vol_2-a-0007.jpg"])
  /\ create_filepath (mkPath "/" ["home"; "u"]) "/srv/maps"
       (mkPath "" ["atlas-ward1-1925-vol_2-vol_2-a-0007.jpg"])
     = mkPath "/" ["srv"; "maps"; "atlas-ward1-1925-vol_2-vol_2-a-0007.jpg"]
  /\ create_filepath (mkPath "/" ["home"; "u"]) "/srv/maps"
       (mkPath "" ["atlas-ward1-1925-vol_2-vol_2-a-0007.jpg"])
     <> mkPath "/" (["home"; "u"] ++ ["srv"; "maps"]
                     ++ ["atlas-ward1-1925-vol_2-vol_2-a-0007.jpg"])
  /\ create_filename (mkSegments ["plates/atlas"] PyNone PyNone) None (Some "7") "jpg"
     = Ok (mkPath "" ["plates"; "atlas-0007.jpg"])
  /\ to_str (mkPath "" ["plates"; "atlas-0007.jpg"]) = "plates/atlas-0007.jpg"
  /\ name (create_filepath (mkPath "/" ["home"; "u"]) "maps"
             (mkPath "" ["plates"; "atlas-0007.jpg"]))
     = "atlas-0007.jpg".
Proof.
  split; [vm_compute; reflexivity|]. split; [vm_compute; reflexivity|].
  split; [vm_compute; discriminate|].
  repeat split; vm_compute; reflexivity.
Qed.

(** C8 (amended): with an absolute working directory, for every output
    directory and every file name that the Filename Builder returns, the
    resolved path is absolute and its final component is the final component
    of the file name, which is the whole file name when the joined segments
    contain no ['/']; when the output directory and the file name are both
    relative, the path is the working directory followed by the output
    directory followed by the file name. *)
Theorem filepath_absolute :
  forall cwd output_path ns part num format filename,
    is_absolute cwd = true ->
    create_filename ns part num format = Ok filename ->
    is_absolute (create_filepath cwd output_path filename) = true
    /\ name (create_filepath cwd output_path filename) = name filename
    /\ (PyStr.contains "/" (stem ns part num format) = false ->
        name (create_filepath cwd output_path filename) = to_str filename)
    /\ (is_absolute (of_str output_path) = false ->
        is_absolute filename = false ->
        create_filepath cwd output_path filename
          = mkPath (root cwd)
                   (parts cwd ++ parts (of_str output_path) ++ parts filename)).
Proof.
  intros cwd output_path ns part num format filename Hcwd Hfn.
  rewrite create_filename_stem in Hfn.
  pose proof (with_suffix_ok _ _ _ Hfn) as (_ & Hparts & _ & _).
  assert (Hname : name (create_filepath cwd output_path filename) = name filename)
    by (apply joinpath_name; exact Hparts).
  split; [|split; [exact Hname|split]].
  - unfold create_filepath. now do 2 apply joinpath_absolute.
  - intros Hsep. rewrite Hname.
    destruct (with_suffix_single _ _ _ Hsep Hfn) as [n ->]. reflexivity.
  - unfold is_absolute, create_filepath, joinpath. intros Ho Hf.
    apply negb_false_iff in Ho, Hf. rewrite Ho, Hf. cbn [root parts].
    now rewrite <- List.app_assoc.
Qed.

Lemma filepath_absolute_witness :
  is_absolute (mkPath "/" ["home"; "u"]) = true
  /\ create_filename scenario_segments (Some "a") (Some "7") "jpg"
     = Ok (mkPath "" ["atlas-ward1-1925-vol_2-vol_2-a-0007.jpg"])
  /\ PyStr.contains "/" (stem scenario_segments (Some "a") (Some "7") "jpg") = false
  /\ is_absolute (of_str "maps") = false
  /\ is_absolute (mkPath "" ["atlas-ward1-1925-vol_2-vol_2-a-0007.jpg"]) = false
  /\ name (create_filepath (mkPath "/" ["home"; "u"]) "maps"
            (mkPath "" ["atlas-ward1-1925-vol_2-vol_2-a-0007.jpg"]))
     = "atlas-ward1-1925-vol_2-vol_2-a-0007.jpg"
  /\ create_filepath (mkPath "/" ["home"; "u"]) "maps"
       (mkPath "" ["atlas-ward1-1925-vol_2-vol_2-a-0007.jpg"])
     = mkPath "/" ["home"; "u"; "maps"; "atlas-ward1-1925-vol_2-vol_2-a-0007.jpg"].
Proof.
  assert (Hcwd : is_absolute (mkPath "/" ["home"; "u"]) = true) by reflexivity.
  assert (Hfn : create_filename scenario_segments (Some "a") (Some "7") "jpg"
                = Ok (mkPath "" ["atlas-ward1-1925-vol_2-vol_2-a-0007.jpg"]))
    by (vm_compute; reflexivity).
  destruct (filepath_absolute (mkPath "/" ["home"; "u"]) "maps"
              scenario_segments (Some "a") (Some "7") "jpg" _ Hcwd Hfn)
    as (_ & _ & Hwhole & Hcat).
  split; [exact Hcwd|]. split; [exact Hfn|]. split; [reflexivity|].
  split; [reflexivity|]. split; [reflexivity|].
  split; [exact (Hwhole eq_refl) | exact (Hcat eq_refl eq_refl)].
Defined.

(** ** Properties of the Retrieval Loop *)

Section LoopFacts.

Variable w : world.

Lemma quiet_nil : quiet w [].
Proof. intros url []. Qed.

Lemma quiet_app (t1 t2 : list event) :
  quiet w t1 -> quiet w t2 -> quiet w (t1 ++ t2).
Proof.
  intros H1 H2 url Hin. apply in_app_or in Hin as [Hin|Hin]; auto.
Qed.

Lemma fail_fast_lift {A : Type} (r : result A) : fail_fast w (lift r).
Proof. destruct r; simpl; [|left]; apply quiet_nil. Qed.

Lemma fail_fast_info (msg : string) : fail_fast w (info msg).
Proof. intros url [H|[]]. discriminate. Qed.

Lemma fail_fast_write (filepath : PurePath) (r : response) :
  fail_fast w (write w filepath r).
Proof.
  assert (Hq : quiet w [FileWrite filepath r])
    by (intros url [H|[]]; discriminate).
  unfold write, fail_fast.
  destruct (write_file_response_chunked w filepath r); [|left]; exact Hq.
Qed.

Lemma fail_fast_fetch (url : string) : fail_fast w (fetch w url).
Proof.
  unfold fetch, fail_fast. destruct (requests_get w url) as [r|e] eqn:E.
  - intros url' [H|[]]. injection H as <-. now rewrite E.
  - right. exists [], url. repeat split; [apply quiet_nil | exact E].
Qed.

Lemma fail_fast_seq {A B : Type} (m : run A) (k : A -> run B) :
  fail_fast w m -> (forall a, fail_fast w (k a)) -> fail_fast w (seq m k).
Proof.
  destruct m as [t [a|e]]; simpl; intros Hm Hk; [|exact Hm].
  specialize (Hk a). destruct (k a) as [t' [b|e]]; simpl in *.
  - now apply quiet_app.
  - destruct Hk as [Hq|(t0 & url & -> & Hq & Hget)].
    + left. now apply quiet_app.
    + right. exists (t ++ t0), url.
      rewrite List.app_assoc. repeat split; [now apply quiet_app | exact Hget].
Qed.

Lemma fail_fast_for_each {A : Type} (l : list A) (body : A -> run unit) :
  (forall x, fail_fast w (body x)) -> fail_fast w (for_each l body).
Proof.
  intros Hbody. induction l as [|x l IH]; simpl.
  - apply quiet_nil.
  - apply fail_fast_seq; [apply Hbody | intros _; exact IH].
Qed.

Lemma fail_fast_retrieve cwd p c ns path i :
  fail_fast w (retrieve w cwd p c ns path i).
Proof.
  unfold retrieve.
  apply fail_fast_seq; [apply fail_fast_lift | intros url].
  apply fail_fast_seq; [apply fail_fast_fetch | intros r].
  apply fail_fast_seq; [apply fail_fast_info | intros _].
  apply fail_fast_seq; [apply fail_fast_lift | intros filename].
  apply fail_fast_seq; [apply fail_fast_info | intros _].
  apply fail_fast_write.
Qed.

Lemma fail_fast_retrieve_files cwd p c mc :
  fail_fast w (retrieve_files w cwd p c mc).
Proof.
  unfold retrieve_files.
  apply fail_fast_for_each. intros path.
  apply fail_fast_for_each. intros i.
  apply fail_fast_retrieve.
Qed.

Lemma fail_fast_main cwd started ended p c mc :
  fail_fast w (main w cwd started ended p c mc).
Proof.
  unfold main.
  apply fail_fast_seq; [apply fail_fast_lift | intros _].
  do 3 (apply fail_fast_seq; [apply fail_fast_info | intros _]).
  apply fail_fast_seq; [apply fail_fast_retrieve_files | intros _].
  apply fail_fast_info.
Qed.

Lemma last_event (pre post t0 : list event) (x y : event) :
  pre ++ x :: post = t0 ++ [y] -> (post = [] /\ x = y) \/ In x t0.
Proof.
  intros E. destruct post as [|z post'] using rev_ind.
  - apply app_inj_tail in E as [_ E]. now left.
  - right. clear IHpost'.
    change (pre ++ x :: post' ++ [z]) with (pre ++ (x :: post') ++ [z]) in E.
    rewrite List.app_assoc in E. apply app_inj_tail in E as [<- _].
    apply in_or_app. right. now left.
Qed.

End LoopFacts.

(** C2, as stated, fails: the loop never looks at the status of a response.
    After the fetch for index 1 is answered with 404, index 2 is still
    fetched and written, and the run ends normally. *)
Lemma non_success_status_counterexample :
  requests_get not_found_world
    "https://tile.loc.gov/image-services/iiif/service:g3290:ct000001/full/pct:25/0/default.jpg"
    = Ok (mkResponse 404 "Not Found")
  /\ success (mkResponse 404 "Not Found") = false
  /\ main not_found_world (mkPath "/" ["home"; "u"]) "t0" "t1"
          jpg_options loc_config (atlas_maps 3)
     = ([LogInfo "Start run: t0";
         LogInfo "Digital Id: g3290m.gct00033";
         LogInfo "Manifest: https://www.loc.gov/item/2010587004/manifest.json";
         Fetch "https://tile.loc.gov/image-services/iiif/service:g3290:ct000001/full/pct:25/0/default.jpg";
         LogInfo "Target URL: https://tile.loc.gov/image-services/iiif/service:g3290:ct000001/full/pct:25/0/default.jpg";
         LogInfo "Image renamed to atlas-ward1-1925-vol_2-vol_2-a-0001.jpg";
         FileWrite (mkPath "/" ["home"; "u"; "maps"; "atlas-ward1-1925-vol_2-vol_2-a-0001.jpg"])
                   (mkResponse 404 "Not Found");
         Fetch "https://tile.loc.gov/image-services/iiif/service:g3290:ct000002/full/pct:25/0/default.jpg";
         LogInfo "Target URL: https://tile.loc.gov/image-services/iiif/service:g3290:ct000002/full/pct:25/0/default.jpg";
         LogInfo "Image renamed to atlas-ward1-1925-vol_2-vol_2-a-0002.jpg";
         FileWrite (mkPath "/" ["home"; "u"; "maps"; "atlas-ward1-1925-vol_2-vol_2-a-0002.jpg"])
                   (mkResponse 404 "Not Found");
         LogInfo "End run: t1"],
        Ok tt).
Proof. repeat split; vm_compute; reflexivity. Qed.

(** C2 (amended): whenever the fetch for some index raises, the run stops
    there: that fetch is the last action of the run, so nothing is logged, no
    fetch is made and no file is written for this or any later index of any
    segment, and the run ends with the exception of the fetch.  The status of
    a response that was received plays no part in this. *)
Theorem run_stops_when_fetch_raises :
  forall w cwd started ended p c mc pre url post e,
    fst (main w cwd started ended p c mc) = pre ++ Fetch url :: post ->
    requests_get w url = Raise e ->
    post = [] /\ snd (main w cwd started ended p c mc) = Raise e.
Proof.
  intros w cwd started ended p c mc pre url post e Htrace Hget.
  pose proof (fail_fast_main w cwd started ended p c mc) as Hff.
  destruct (main w cwd started ended p c mc) as [t r]. simpl in *.
  assert (Hin : In (Fetch url) t).
  { rewrite Htrace. apply in_or_app. right. now left. }
  assert (Hnq : forall t', In (Fetch url) t' -> ~ quiet w t').
  { intros t' Hin' Hq. specialize (Hq url Hin'). rewrite Hget in Hq. discriminate. }
  destruct r as [a|e'].
  - exfalso. exact (Hnq t Hin Hff).
  - destruct Hff as [Hq|(t0 & url' & -> & Hq & Hget')].
    + exfalso. exact (Hnq t Hin Hq).
    + destruct (last_event pre post t0 _ _ (eq_sym Htrace)) as [[-> E]|Hin0].
      * injection E as <-. rewrite Hget in Hget'. now injection Hget' as <-.
      * exfalso. exact (Hnq t0 Hin0 Hq).
Qed.

Lemma run_stops_when_fetch_raises_witness :
  fst (main broken_link_world (mkPath "/" ["home"; "u"]) "t0" "t1"
            jpg_options loc_config (atlas_maps 4))
    = [LogInfo "Start run: t0";
       LogInfo "Digital Id: g3290m.gct00033";
       LogInfo "Manifest: https://www.loc.gov/item/2010587004/manifest.json";
       Fetch "https://tile.loc.gov/image-services/iiif/service:g3290:ct000001/full/pct:25/0/default.jpg";
       LogInfo "Target URL: https://tile.loc.gov/image-services/iiif/service:g3290:ct000001/full/pct:25/0/default.jpg";
       LogInfo "Image renamed to atlas-ward1-1925-vol_2-vol_2-a-0001.jpg";
       FileWrite (mkPath "/" ["home"; "u"; "maps"; "atlas-ward1-1925-vol_2-vol_2-a-0001.jpg"])
                 (mkResponse 200 "II*")]
      ++ Fetch "https://tile.loc.gov/image-services/iiif/service:g3290:ct000002/full/pct:25/0/default.jpg"
      :: []
  /\ requests_get broken_link_world
       "https://tile.loc.gov/image-services/iiif/service:g3290:ct000002/full/pct:25/0/default.jpg"
     = Raise (ConnectionError
         "https://tile.loc.gov/image-services/iiif/service:g3290:ct000002/full/pct:25/0/default.jpg")
  /\ snd (main broken_link_world (mkPath "/" ["home"; "u"]) "t0" "t1"
               jpg_options loc_config (atlas_maps 4))
     = Raise (ConnectionError
         "https://tile.loc.gov/image-services/iiif/service:g3290:ct000002/full/pct:25/0/default.jpg").
Proof.
  split; [vm_compute; reflexivity|]. split; [vm_compute; reflexivity|].
  exact (proj2 (run_stops_when_fetch_raises broken_link_world
                  (mkPath "/" ["home"; "u"]) "t0" "t1"
                  jpg_options loc_config (atlas_maps 4)
                  [LogInfo "Start run: t0";
                   LogInfo "Digital Id: g3290m.gct00033";
                   LogInfo "Manifest: https://www.loc.gov/item/2010587004/manifest.json";
                   Fetch "https://tile.loc.gov/image-services/iiif/service:g3290:ct000001/full/pct:25/0/default.jpg";
                   LogInfo "Target URL: https://tile.loc.gov/image-services/iiif/service:g3290:ct000001/full/pct:25/0/default.jpg";
                   LogInfo "Image renamed to atlas-ward1-1925-vol_2-vol_2-a-0001.jpg";
                   FileWrite (mkPath "/" ["home"; "u"; "maps"; "atlas-ward1-1925-vol_2-vol_2-a-0001.jpg"])
                             (mkResponse 200 "II*")]
                  "https://tile.loc.gov/image-services/iiif/service:g3290:ct000002/full/pct:25/0/default.jpg"
                  []
                  (ConnectionError
                     "https://tile.loc.gov/image-services/iiif/service:g3290:ct000002/full/pct:25/0/default.jpg")
                  ltac:(vm_compute; reflexivity)
                  ltac:(vm_compute; reflexivity))).
Defined.

(** * Further properties of the code *)

(** ** Zero filling and the index token *)

Section ZfillFacts.

Lemma zeros_app (m n : nat) :
  PyStr.zeros (m + n) = PyStr.zeros m +:+ PyStr.zeros n.
Proof. induction m as [|m IH]; simpl; [reflexivity | now rewrite IH]. Qed.

Lemma zfill_unsigned (w : Z) (s : string) :
  has_sign s = false ->
  PyStr.zfill w s = PyStr.zeros (Z.to_nat (w - PyStr.len s)) +:+ s.
Proof.
  intros Hs. unfold PyStr.zfill.
  destruct (Z.leb_spec w (PyStr.len s)) as [Hle|Hgt].
  - replace (Z.to_nat (w - PyStr.len s)) with O by lia. reflexivity.
  - destruct s as [|c r]; [now rewrite app_nil_r|].
    simpl in Hs. now rewrite Hs.
Qed.

Lemma zfill_signed (w : Z) (c : ascii) (r : string) :
  has_sign (String c r) = true ->
  PyStr.zfill w (String c r)
  = String c (PyStr.zeros (Z.to_nat (w - PyStr.len (String c r))) +:+ r).
Proof.
  intros Hs. unfold PyStr.zfill.
  destruct (Z.leb_spec w (PyStr.len (String c r))) as [Hle|Hgt].
  - replace (Z.to_nat (w - PyStr.len (String c r))) with O by lia. reflexivity.
  - simpl in Hs. now rewrite Hs.
Qed.

Lemma has_sign_zeros_app (n : nat) (s : string) :
  has_sign s = false -> has_sign (PyStr.zeros n +:+ s) = false.
Proof. destruct n; [trivial | reflexivity]. Qed.

Lemma len_app (a b : string) : PyStr.len (a +:+ b) = PyStr.len a + PyStr.len b.
Proof. unfold PyStr.len. rewrite length_app. lia. Qed.

Lemma len_zeros (n : nat) : PyStr.len (PyStr.zeros n) = Z.of_nat n.
Proof. unfold PyStr.len. now rewrite length_zeros. Qed.

Lemma len_nonneg (s : string) : 0 <= PyStr.len s.
Proof. unfold PyStr.len. lia. Qed.

Lemma len_String (c : ascii) (r : string) :
  PyStr.len (String c r) = 1 + PyStr.len r.
Proof. unfold PyStr.len. cbn [String.length]. lia. Qed.

Lemma zfill_len (w : Z) (s : string) :
  PyStr.len (PyStr.zfill w s) = Z.max w (PyStr.len s).
Proof.
  pose proof (len_nonneg s) as H0.
  destruct (has_sign s) eqn:Hs.
  - destruct s as [|c r]; [discriminate|].
    rewrite (zfill_signed w c r Hs), len_String, len_app, len_zeros.
    rewrite len_String in *. lia.
  - rewrite (zfill_unsigned w s Hs), len_app, len_zeros. lia.
Qed.

Lemma zfill_zfill (a b : Z) (s : string) :
  PyStr.zfill a (PyStr.zfill b s) = PyStr.zfill (Z.max a b) s.
Proof.
  pose proof (len_nonneg s) as H0.
  destruct (has_sign s) eqn:Hs.
  - destruct s as [|c r]; [discriminate|].
    rewrite (zfill_signed b c r Hs).
    assert (Hs' : forall x, has_sign (String c x) = true) by (intros x; exact Hs).
    rewrite (zfill_signed a c _ (Hs' _)), (zfill_signed (Z.max a b) c r Hs).
    f_equal. rewrite <- app_assoc, <- zeros_app. f_equal. f_equal.
    rewrite !len_String, len_app, len_zeros. rewrite len_String in H0. lia.
  - rewrite (zfill_unsigned b s Hs).
    rewrite (zfill_unsigned a _ (has_sign_zeros_app _ s Hs)).
    rewrite (zfill_unsigned (Z.max a b) s Hs).
    rewrite <- app_assoc, <- zeros_app. f_equal. f_equal.
    rewrite len_app, len_zeros. lia.
Qed.

Lemma zfill_small (w : Z) (s : string) : w <= PyStr.len s -> PyStr.zfill w s = s.
Proof.
  intros H. unfold PyStr.zfill.
  destruct (Z.leb_spec w (PyStr.len s)); [reflexivity | lia].
Qed.

Lemma pad_num_zfill (s : string) : pad_num s = PyStr.zfill 4 s.
Proof.
  unfold pad_num. destruct (Z.ltb_spec (PyStr.len s) 4) as [Hlt|Hge];
    [reflexivity | now rewrite zfill_small].
Qed.

Lemma index_token_zfill (w i : Z) :
  index_token w i = PyStr.zfill w (PyStr.of_int i).
Proof.
  unfold index_token. destruct (Z.ltb_spec 0 w) as [Hlt|Hge]; [reflexivity|].
  rewrite zfill_small; [reflexivity|]. pose proof (len_nonneg (PyStr.of_int i)). lia.
Qed.

Lemma pad_num_index_token (w i : Z) :
  pad_num (index_token w i) = index_token (Z.max w 4) i.
Proof.
  rewrite pad_num_zfill, !index_token_zfill, zfill_zfill. f_equal. lia.
Qed.

End ZfillFacts.

(** ** Reading an index token back *)

Section TokenFacts.

Lemma uint_of_zeros_app (n : nat) (s : string) :
  NilEmpty.uint_of_string (PyStr.zeros n +:+ s)
  = option_map (Nat.iter n Decimal.D0) (NilEmpty.uint_of_string s).
Proof.
  induction n as [|n IH].
  - simpl. now destruct (NilEmpty.uint_of_string s).
  - cbn [PyStr.zeros String.append NilEmpty.uint_of_string Nat.iter nat_rect].
    rewrite IH. now destruct (NilEmpty.uint_of_string s).
Qed.

Lemma of_uint_iter_D0 (n : nat) (d : Decimal.uint) :
  Z.of_uint (Nat.iter n Decimal.D0 d) = Z.of_uint d.
Proof. induction n as [|n IH]; [reflexivity | exact IH]. Qed.

Lemma int_of_unsigned (t : string) (d : Decimal.uint) :
  NilEmpty.uint_of_string t = Some d ->
  NilEmpty.int_of_string t = Some (Decimal.Pos d).
Proof.
  destruct t as [|a t]; simpl.
  - now intros [= <-].
  - intros H. destruct (Ascii.eqb_spec a "-") as [->|_].
    + destruct (NilEmpty.uint_of_string t); discriminate.
    + now rewrite H.
Qed.

Lemma has_sign_string_of_uint (d : Decimal.uint) :
  has_sign (NilEmpty.string_of_uint d) = false.
Proof. destruct d; reflexivity. Qed.

Lemma forall_chars_string_of_uint (d : Decimal.uint) :
  forall_chars token_char (NilEmpty.string_of_uint d) = true.
Proof. induction d; simpl; auto. Qed.

Lemma forall_chars_app (P : ascii -> bool) (a b : string) :
  forall_chars P (a +:+ b) = forall_chars P a && forall_chars P b.
Proof.
  induction a as [|x a IH]; simpl; [reflexivity|].
  now rewrite IH, andb_assoc.
Qed.

Lemma forall_chars_zeros (n : nat) : forall_chars token_char (PyStr.zeros n) = true.
Proof. induction n; simpl; auto. Qed.

Lemma forall_chars_contains (P : ascii -> bool) (c : ascii) (s : string) :
  forall_chars P s = true -> P c = false -> PyStr.contains c s = false.
Proof.
  intros Hs Hc. induction s as [|a s IH]; simpl in *; [reflexivity|].
  apply andb_true_iff in Hs as [Ha Hs]. rewrite (IH Hs), orb_false_r.
  destruct (Ascii.eqb_spec a c) as [->|]; [congruence | reflexivity].
Qed.

(** [str(i)] is an optional ['-'] followed by the digits of [|i|]. *)
Lemma of_int_cases (i : Z) :
  exists d,
    (PyStr.of_int i = NilEmpty.string_of_uint d /\ i = Z.of_uint d)
    \/ (PyStr.of_int i = String "-" (NilEmpty.string_of_uint d)
        /\ i = - Z.of_uint d).
Proof.
  pose proof (DecimalZ.of_to i) as H. unfold PyStr.of_int.
  destruct (Z.to_int i) as [d|d]; exists d; [left | right];
    (split; [reflexivity | now rewrite <- H]).
Qed.

Lemma of_int_nonempty (i : Z) : PyStr.of_int i <> "".
Proof.
  unfold PyStr.of_int. destruct i as [|p|p]; cbn [Z.to_int NilEmpty.string_of_int];
    try discriminate.
  intros H.
  pose proof (NilEmpty.usu (Pos.to_uint p)) as Hu. rewrite H in Hu.
  injection Hu as Hu.
  pose proof (DecimalPos.Unsigned.of_to p) as Hp. rewrite <- Hu in Hp.
  discriminate.
Qed.

Lemma int_of_token_zfill (w i : Z) :
  int_of_token (PyStr.zfill w (PyStr.of_int i)) = Some i.
Proof.
  unfold int_of_token.
  destruct (of_int_cases i) as [d [[E Hi]|[E Hi]]]; rewrite E.
  - rewrite zfill_unsigned by apply has_sign_string_of_uint.
    erewrite int_of_unsigned
      by (rewrite uint_of_zeros_app, NilEmpty.usu; reflexivity).
    cbn [option_map Z.of_int]. now rewrite of_uint_iter_D0, Hi.
  - rewrite zfill_signed by reflexivity.
    cbn [NilEmpty.int_of_string]. rewrite Ascii.eqb_refl.
    rewrite uint_of_zeros_app, NilEmpty.usu.
    cbn [option_map Z.of_int]. now rewrite of_uint_iter_D0, Hi.
Qed.

Lemma forall_chars_of_int (i : Z) : forall_chars token_char (PyStr.of_int i) = true.
Proof.
  destruct (of_int_cases i) as [d [[E _]|[E _]]]; rewrite E;
    cbn [forall_chars]; rewrite forall_chars_string_of_uint; reflexivity.
Qed.

Lemma forall_chars_zfill (w : Z) (s : string) :
  forall_chars token_char s = true ->
  forall_chars token_char (PyStr.zfill w s) = true.
Proof.
  intros H. destruct (has_sign s) eqn:Hs.
  - destruct s as [|c r]; [discriminate|].
    rewrite (zfill_signed w c r Hs). cbn [forall_chars] in *.
    apply andb_true_iff in H as [Hc Hr].
    now rewrite Hc, forall_chars_app, forall_chars_zeros, Hr.
  - rewrite (zfill_unsigned w s Hs), forall_chars_app, forall_chars_zeros.
    exact H.
Qed.

End TokenFacts.

Section CancelFacts.

Lemma app_inv_head (a b c : string) : a +:+ b = a +:+ c -> b = c.
Proof. induction a as [|x a IH]; simpl; [trivial | intros [= H]; auto]. Qed.

Lemma app_inv_tail (a b c : string) : a +:+ c = b +:+ c -> a = b.
Proof.
  revert b. induction a as [|x a IH]; intros [|y b] H.
  - reflexivity.
  - apply (f_equal String.length) in H. simpl in H. rewrite length_app in H. lia.
  - apply (f_equal String.length) in H. simpl in H. rewrite length_app in H. lia.
  - simpl in H. injection H as -> H. f_equal. auto.
Qed.

Lemma contains_join (c : ascii) (sep : string) (l : list string) :
  PyStr.contains c sep = false ->
  PyStr.contains c (PyStr.join sep l) = List.existsb (PyStr.contains c) l.
Proof.
  intros Hsep. induction l as [|x [|y l] IH].
  - reflexivity.
  - simpl. now rewrite orb_false_r.
  - rewrite join_cons, !contains_app, Hsep, IH. reflexivity.
Qed.

Lemma join_snoc_lead (sep : string) (l : list string) :
  exists lead, forall x, PyStr.join sep (l ++ [x]) = lead +:+ x.
Proof.
  induction l as [|y l [lead IH]].
  - exists "". reflexivity.
  - exists (y +:+ sep +:+ lead). intros x.
    change ((y :: l) ++ [x]) with (y :: (l ++ [x])).
    destruct (l ++ [x]) as [|z r] eqn:E.
    + apply app_eq_nil in E as [_ E]. discriminate.
    + rewrite join_cons, <- E, IH, !app_assoc. reflexivity.
Qed.

End CancelFacts.

(** X1: the index token has as many characters as the larger of the
    zero-fill width and the length of [str(i)]: it is filled up to the
    width and never cut, and it is never empty. *)
Theorem index_token_length :
  forall w i,
    PyStr.len (index_token w i) = Z.max w (PyStr.len (PyStr.of_int i))
    /\ 1 <= PyStr.len (index_token w i).
Proof.
  intros w i. rewrite index_token_zfill, zfill_len. split; [reflexivity|].
  pose proof (of_int_nonempty i) as Hne.
  destruct (PyStr.of_int i) as [|c r]; [contradiction|].
  rewrite len_String. pose proof (len_nonneg r). lia.
Qed.

(** X2: the token that [create_filename] appends in the loop is the index
    zero-filled to the larger of the configured width and 4; from width 4
    on the file name carries the very token of the URL. *)
Theorem filename_token_width :
  forall w i,
    pad_num (index_token w i) = index_token (Z.max w 4) i
    /\ (4 <= w -> pad_num (index_token w i) = index_token w i).
Proof.
  intros w i.
  pose proof (pad_num_index_token w i) as H.
  split; [exact H|]. intros Hw. rewrite H. f_equal. lia.
Qed.

Lemma filename_token_width_witness :
  4 <= 5 /\ pad_num (index_token 5 7) = index_token 5 7
  /\ pad_num (index_token 2 7) = index_token 4 7.
Proof.
  assert (H : 4 <= 5) by lia.
  split; [exact H|].
  split; [exact (proj2 (filename_token_width 5 7) H)
         | exact (proj1 (filename_token_width 2 7))].
Defined.

(** X3: the token reads back as the index it was made from, whatever the
    width, so different indices never share a token, neither in the URL nor
    in the file name. *)
Theorem index_token_distinct :
  forall w i j,
    int_of_token (index_token w i) = Some i
    /\ (i <> j ->
        index_token w i <> index_token w j
        /\ pad_num (index_token w i) <> pad_num (index_token w j)).
Proof.
  intros w i j.
  assert (Hread : forall w' k, int_of_token (index_token w' k) = Some k).
  { intros w' k. rewrite index_token_zfill. apply int_of_token_zfill. }
  split; [apply Hread|]. intros Hij. split; intros E.
  - apply Hij. pose proof (Hread w i) as Hi. rewrite E, Hread in Hi. congruence.
  - apply Hij. rewrite !pad_num_index_token in E.
    pose proof (Hread (Z.max w 4) i) as Hi. rewrite E, Hread in Hi. congruence.
Qed.

Lemma index_token_distinct_witness :
  7 <> 70 /\ index_token 3 7 <> index_token 3 70
  /\ pad_num (index_token 3 7) <> pad_num (index_token 3 70).
Proof.
  assert (H : 7 <> 70) by lia.
  split; [exact H | exact (proj2 (index_token_distinct 3 7 70) H)].
Defined.

(** X4: the token consists of decimal digits and at most a leading minus
    sign, so it brings no ['/'], ['.'] or [':'] into a URL or a file
    name. *)
Theorem index_token_chars :
  forall w i,
    forall_chars token_char (index_token w i) = true
    /\ PyStr.contains "/" (index_token w i) = false
    /\ PyStr.contains "." (index_token w i) = false
    /\ PyStr.contains ":" (index_token w i) = false.
Proof.
  intros w i.
  assert (H : forall_chars token_char (index_token w i) = true).
  { rewrite index_token_zfill. apply forall_chars_zfill, forall_chars_of_int. }
  split; [exact H|].
  repeat split; apply (forall_chars_contains token_char _ _ H); reflexivity.
Qed.

(** ** File names and URLs of the loop *)

Section LoopNameFacts.

Lemma index_token_inj (w i j : Z) : index_token w i = index_token w j -> i = j.
Proof.
  intros E.
  pose proof (int_of_token_zfill w i) as Hi.
  rewrite <- index_token_zfill, E, index_token_zfill, int_of_token_zfill in Hi.
  congruence.
Qed.

Lemma index_token_nonempty (w i : Z) : index_token w i <> "".
Proof.
  intros E. apply (f_equal PyStr.len) in E.
  rewrite index_token_zfill, zfill_len in E.
  pose proof (of_int_nonempty i) as Hne.
  destruct (PyStr.of_int i) as [|c r]; [contradiction|].
  rewrite len_String in E. pose proof (len_nonneg r).
  change (PyStr.len "") with 0 in E. lia.
Qed.

Lemma image_segments_Some ns part (tok : string) :
  tok <> "" ->
  image_segments ns part (Some tok) = image_segments ns part None ++ [pad_num tok].
Proof.
  intros Hne. rewrite !image_segments_tokens. unfold num_tokens.
  apply String.eqb_neq in Hne. rewrite Hne.
  rewrite !List.app_nil_r, <- !List.app_assoc. reflexivity.
Qed.

Lemma existsb_clean (c : ascii) (l : list string) :
  clean_segments l = true -> (c = "." \/ c = "/")%char ->
  List.existsb (PyStr.contains c) l = false.
Proof.
  intros Hl Hc. induction l as [|x l IH]; [reflexivity|].
  cbn [clean_segments List.forallb] in Hl.
  apply andb_true_iff in Hl as [Hx Hl]. apply andb_true_iff in Hx as [Hd Hs].
  apply negb_true_iff in Hd, Hs. cbn [List.existsb].
  rewrite (IH Hl), orb_false_r. now destruct Hc as [-> | ->].
Qed.

Lemma loop_stem_plain (l : list string) (w i : Z) :
  clean_segments l = true ->
  plain (PyStr.join "-" (l ++ [index_token w i])) = true.
Proof.
  intros Hl. unfold plain.
  assert (Hc : forall c, (c = "." \/ c = "/")%char ->
            PyStr.contains c (PyStr.join "-" (l ++ [index_token w i])) = false).
  { intros c Hc. rewrite contains_join by (now destruct Hc as [-> | ->]).
    rewrite List.existsb_app, (existsb_clean c l Hl Hc). cbn [List.existsb].
    rewrite orb_false_r, orb_false_l.
    apply (forall_chars_contains token_char).
    - rewrite index_token_zfill. apply forall_chars_zfill, forall_chars_of_int.
    - now destruct Hc as [-> | ->]. }
  rewrite (Hc "/"%char), (Hc "."%char) by auto. rewrite andb_true_r. cbn [negb].
  rewrite andb_true_r. apply negb_true_iff, String.eqb_neq.
  destruct (join_snoc_lead "-" l) as [lead Hlead]. rewrite Hlead.
  intros E. apply (f_equal String.length) in E. rewrite length_app in E.
  pose proof (index_token_nonempty w i) as Hne.
  destruct (index_token w i); [contradiction|]. simpl in E. lia.
Qed.

Lemma loop_filename ns part (w i : Z) (fmt : string) :
  fmt <> "log" -> valid_format fmt = true ->
  clean_segments (image_segments ns part None) = true ->
  create_filename ns part (Some (index_token w i)) fmt
  = Ok (mkPath "" [PyStr.join "-" (image_segments ns part None
                                     ++ [index_token (Z.max w 4) i])
                   +:+ "." +:+ fmt]).
Proof.
  intros Hlog Hfmt Hclean.
  pose proof (stem_image ns part (Some (index_token w i)) fmt Hlog) as Hstem.
  rewrite (image_segments_Some ns part _ (index_token_nonempty w i)) in Hstem.
  rewrite pad_num_index_token in Hstem.
  rewrite <- Hstem. apply create_filename_plain; [|exact Hfmt].
  rewrite Hstem. now apply loop_stem_plain.
Qed.

Lemma create_url_around_num (p : parser) (c : config) (g idp : string) :
  service_path c !! format p = None
  \/ exists a b, forall num, create_url p c g idp num = Ok (a +:+ num +:+ b).
Proof.
  destruct (service_path c !! format p) as [sp|] eqn:Hsp; [right | now left].
  unfold create_url. rewrite (getitem_Some _ _ _ Hsp). cbn [bind].
  unfold PyStr.join. cbn [String.concat].
  destruct (is_raw_format (format p)).
  - exists (protocol c +:+ "://" +:+ subdomain c +:+ "." +:+ domain c +:+ "/" +:+ sp
            +:+ "/" +:+ PyStr.replace ":" "/" g +:+ "/" +:+ idp),
           ("." +:+ format p).
    intros num. rewrite !app_assoc. reflexivity.
  - exists (protocol c +:+ "://" +:+ subdomain c +:+ "." +:+ domain c +:+ "/" +:+ sp
            +:+ ":" +:+ g +:+ ":" +:+ idp),
           ("/" +:+ region p +:+ "/pct:" +:+ py_str (size p)
            +:+ "/" +:+ py_str (rotation_degrees p)
            +:+ "/" +:+ quality p +:+ "." +:+ format p).
    intros num. rewrite !app_assoc. reflexivity.
Qed.

End LoopNameFacts.

(** X5: in the loop, with a non-log format that is a valid extension and
    configured segments (name, year, volume, part) free of ['.'] and ['/'],
    [create_filename] succeeds for every index and width: the file name is
    the segments and the index zero-filled to at least 4, joined by ['-'],
    then ['.'] and the format; [create_filepath] puts it directly into the
    output directory. *)
Theorem loop_filename_succeeds :
  forall cwd out ns part w i fmt,
    fmt <> "log" ->
    valid_format fmt = true ->
    clean_segments (image_segments ns part None) = true ->
    let file := PyStr.join "-" (image_segments ns part None
                                  ++ [index_token (Z.max w 4) i])
                +:+ "." +:+ fmt in
    let dir := joinpath cwd (of_str out) in
    create_filename ns part (Some (index_token w i)) fmt = Ok (mkPath "" [file])
    /\ create_filepath cwd out (mkPath "" [file])
       = mkPath (root dir) (parts dir ++ [file])
    /\ name (create_filepath cwd out (mkPath "" [file])) = file.
Proof.
  intros cwd out ns part w i fmt Hlog Hfmt Hclean file dir.
  split; [now apply loop_filename|].
  assert (E : create_filepath cwd out (mkPath "" [file])
              = mkPath (root dir) (parts dir ++ [file])) by reflexivity.
  split; [exact E|]. rewrite E. unfold name. cbn [parts]. apply last_last.
Qed.

Lemma loop_filename_succeeds_witness :
  "jpg" <> "log"
  /\ valid_format "jpg" = true
  /\ clean_segments (image_segments scenario_segments (Some "a") None) = true
  /\ create_filename scenario_segments (Some "a") (Some (index_token 3 12)) "jpg"
     = Ok (mkPath "" ["atlas-ward1-1925-vol_2-vol_2-a-0012.jpg"])
  /\ create_filepath (mkPath "/" ["home"; "u"]) "maps"
       (mkPath "" ["atlas-ward1-1925-vol_2-vol_2-a-0012.jpg"])
     = mkPath "/" ["home"; "u"; "maps"; "atlas-ward1-1925-vol_2-vol_2-a-0012.jpg"].
Proof.
  assert (Hlog : "jpg" <> "log") by discriminate.
  split; [exact Hlog|]. split; [reflexivity|]. split; [reflexivity|].
  destruct (loop_filename_succeeds (mkPath "/" ["home"; "u"]) "maps"
              scenario_segments (Some "a") 3 12 "jpg" Hlog eq_refl eq_refl)
    as (Hname & Hpath & _).
  split; [exact Hname | exact Hpath].
Defined.

(** X6: under the same conditions, different indices of a segment get
    different file names and different file paths: no image of a segment
    overwrites another. *)
Theorem loop_filenames_distinct :
  forall cwd out ns part w i j fmt fi fj,
    fmt <> "log" ->
    valid_format fmt = true ->
    clean_segments (image_segments ns part None) = true ->
    i <> j ->
    create_filename ns part (Some (index_token w i)) fmt = Ok fi ->
    create_filename ns part (Some (index_token w j)) fmt = Ok fj ->
    fi <> fj /\ create_filepath cwd out fi <> create_filepath cwd out fj.
Proof.
  intros cwd out ns part w i j fmt fi fj Hlog Hfmt Hclean Hij Hi Hj.
  rewrite (loop_filename ns part w i fmt Hlog Hfmt Hclean) in Hi.
  rewrite (loop_filename ns part w j fmt Hlog Hfmt Hclean) in Hj.
  injection Hi as <-. injection Hj as <-.
  destruct (join_snoc_lead "-" (image_segments ns part None)) as [lead Hlead].
  rewrite !Hlead, !app_assoc.
  assert (Hne : lead +:+ index_token (Z.max w 4) i +:+ "." +:+ fmt
                <> lead +:+ index_token (Z.max w 4) j +:+ "." +:+ fmt).
  { intros E. apply app_inv_head, app_inv_tail, index_token_inj in E.
    contradiction. }
  split.
  - intros E. injection E as E. contradiction.
  - unfold create_filepath, joinpath at 1 3. cbn [root parts String.eqb].
    intros E. injection E as E. apply List.app_inv_head in E.
    injection E as E. contradiction.
Qed.

Lemma loop_filenames_distinct_witness :
  "jpg" <> "log"
  /\ valid_format "jpg" = true
  /\ clean_segments (image_segments scenario_segments (Some "a") None) = true
  /\ 7 <> 70
  /\ mkPath "" ["atlas-ward1-1925-vol_2-vol_2-a-0007.jpg"]
     <> mkPath "" ["atlas-ward1-1925-vol_2-vol_2-a-0070.jpg"].
Proof.
  assert (Hlog : "jpg" <> "log") by discriminate.
  assert (Hij : 7 <> 70) by lia.
  split; [exact Hlog|]. split; [reflexivity|]. split; [reflexivity|].
  split; [exact Hij|].
  exact (proj1 (loop_filenames_distinct (mkPath "/" ["home"; "u"]) "maps"
                  scenario_segments (Some "a") 3 7 70 "jpg" _ _
                  Hlog eq_refl eq_refl Hij eq_refl eq_refl)).
Defined.

(** X7: for a fixed segment, different indices are requested at different
    URLs, in both addressing schemes. *)
Theorem loop_urls_distinct :
  forall p c g idp w i j ui uj,
    i <> j ->
    create_url p c g idp (index_token w i) = Ok ui ->
    create_url p c g idp (index_token w j) = Ok uj ->
    ui <> uj.
Proof.
  intros p c g idp w i j ui uj Hij Hi Hj E. subst uj.
  destruct (create_url_around_num p c g idp) as [Hnone|(a & b & Hab)].
  - unfold create_url in Hi. rewrite (getitem_None _ _ Hnone) in Hi.
    destruct (is_raw_format (format p)); discriminate.
  - rewrite Hab in Hi, Hj. rewrite <- Hj in Hi. injection Hi as Hi.
    apply app_inv_head, app_inv_tail, index_token_inj in Hi. contradiction.
Qed.

Lemma loop_urls_distinct_witness :
  1 <> 2
  /\ "https://tile.loc.gov/image-services/iiif/service:g3290:ct000001/full/pct:25/0/default.jpg"
     <> "https://tile.loc.gov/image-services/iiif/service:g3290:ct000002/full/pct:25/0/default.jpg".
Proof.
  assert (Hij : 1 <> 2) by lia.
  split; [exact Hij|].
  exact (loop_urls_distinct jpg_options loc_config "g3290" "ct000" 3 1 2 _ _
           Hij ltac:(vm_compute; reflexivity) ltac:(vm_compute; reflexivity)).
Defined.

(** ** The loops as one pass over the work items *)

Section RunFacts.

Lemma seq_assoc {A B C : Type} (m : run A) (k : A -> run B) (h : B -> run C) :
  seq (seq m k) h = seq m (fun a => seq (k a) h).
Proof.
  destruct m as [t [a|e]]; simpl; [|reflexivity].
  destruct (k a) as [t' [b|e]]; simpl; [|reflexivity].
  destruct (h b) as [t'' r]. now rewrite List.app_assoc.
Qed.

Lemma seq_ret_l {A B : Type} (a : A) (k : A -> run B) : seq (ret a) k = k a.
Proof. simpl. now destruct (k a). Qed.

Lemma seq_ret_r (m : run unit) : seq m (fun _ => ret tt) = m.
Proof.
  destruct m as [t [[]|e]]; simpl; [|reflexivity]. now rewrite List.app_nil_r.
Qed.

Lemma for_each_app {A : Type} (l1 l2 : list A) (body : A -> run unit) :
  for_each (l1 ++ l2) body = seq (for_each l1 body) (fun _ => for_each l2 body).
Proof.
  induction l1 as [|x l1 IH]; cbn [for_each List.app].
  - now rewrite seq_ret_l.
  - now rewrite IH, seq_assoc.
Qed.

Lemma for_each_map {A B : Type} (f : A -> B) (l : list A) (body : B -> run unit) :
  for_each (List.map f l) body = for_each l (fun x => body (f x)).
Proof. induction l as [|x l IH]; simpl; [reflexivity | now rewrite IH]. Qed.

Lemma for_each_flat_map {A B : Type} (f : A -> list B) (l : list A)
  (body : B -> run unit) :
  for_each (List.flat_map f l) body = for_each l (fun x => for_each (f x) body).
Proof.
  induction l as [|x l IH]; cbn [List.flat_map for_each]; [reflexivity|].
  now rewrite for_each_app, IH.
Qed.

Lemma for_each_ext {A : Type} (l : list A) (f g : A -> run unit) :
  (forall x, f x = g x) -> for_each l f = for_each l g.
Proof.
  intros H. induction l as [|x l IH]; simpl; [reflexivity | now rewrite H, IH].
Qed.

Lemma retrieve_files_items w cwd p c mc :
  retrieve_files w cwd p c mc
  = for_each (work_items mc) (retrieve_item w cwd p c (filename_segments mc)).
Proof.
  unfold retrieve_files, work_items. rewrite for_each_flat_map.
  apply for_each_ext. intros path. now rewrite for_each_map.
Qed.

End RunFacts.

Section OutcomeFacts.

Lemma for_each_outcome {A : Type} (l : list A) (body : A -> run unit) :
  (snd (for_each l body) = Ok tt
   /\ Forall (fun x => snd (body x) = Ok tt) l
   /\ fst (for_each l body) = List.concat (List.map (fun x => fst (body x)) l))
  \/ (exists l1 x l2 e,
        l = l1 ++ x :: l2
        /\ Forall (fun x => snd (body x) = Ok tt) l1
        /\ snd (body x) = Raise e
        /\ snd (for_each l body) = Raise e
        /\ fst (for_each l body)
           = List.concat (List.map (fun x => fst (body x)) l1) ++ fst (body x)).
Proof.
  induction l as [|x l IH]; cbn [for_each].
  - left. repeat split. constructor.
  - destruct (body x) as [t [[]|e]] eqn:E.
    + cbn [seq]. destruct (for_each l body) as [t' r] eqn:El. cbn [fst snd] in *.
      destruct IH as [(Hr & Hall & Ht)|(l1 & y & l2 & e & -> & Hall & Hy & Hr & Ht)].
      * left. subst r t'. repeat split.
        -- constructor; [now rewrite E | exact Hall].
        -- cbn [List.map List.concat]. now rewrite E.
      * right. exists (x :: l1), y, l2, e. subst r t'. repeat split; try assumption.
        -- constructor; [now rewrite E | exact Hall].
        -- cbn [List.map List.concat]. rewrite E. cbn [fst].
           now rewrite List.app_assoc.
    + right. exists [], x, l, e. rewrite E. cbn [seq fst snd].
      repeat split. constructor.
Qed.

Lemma in_for_each {A : Type} (l : list A) (body : A -> run unit) (ev : event) :
  In ev (fst (for_each l body)) -> exists x, In x l /\ In ev (fst (body x)).
Proof.
  induction l as [|x l IH]; cbn [for_each]; [intros []|].
  destruct (body x) as [t [[]|e]] eqn:E; cbn [seq].
  - destruct (for_each l body) as [t' r]. cbn [fst] in *. intros Hin.
    apply in_app_or in Hin as [Hin|Hin].
    + exists x. split; [now left | now rewrite E].
    + destruct (IH Hin) as (y & Hy & Hev). exists y. split; [now right | exact Hev].
  - cbn [fst]. intros Hin. exists x. split; [now left | now rewrite E].
Qed.

(** What one pass of the loop body leaves behind, by the first call that
    raises. *)
Lemma retrieve_item_outcome w cwd p c ns item :
  match item_url p c item with
  | Raise e => retrieve_item w cwd p c ns item = ([], Raise e)
  | Ok url =>
      match requests_get w url with
      | Raise e => retrieve_item w cwd p c ns item = ([Fetch url], Raise e)
      | Ok r =>
          match item_filepath cwd p ns item with
          | Raise e =>
              retrieve_item w cwd p c ns item
              = ([Fetch url; LogInfo ("Target URL: " +:+ url)], Raise e)
          | Ok filepath =>
              retrieve_item w cwd p c ns item
              = ([Fetch url; LogInfo ("Target URL: " +:+ url);
                  LogInfo ("Image renamed to " +:+ name filepath);
                  FileWrite filepath r],
                 write_file_response_chunked w filepath r)
          end
      end
  end.
Proof.
  unfold retrieve_item, retrieve, item_url, item_filepath, item_token.
  destruct (create_url _ _ _ _ _) as [url|e]; [|reflexivity].
  cbn [lift seq fetch]. destruct (requests_get w url) as [r|e]; [|reflexivity].
  cbn [info emit seq List.app].
  destruct (create_filename _ _ _ _) as [fn|e]; [|reflexivity].
  cbn [bind write seq List.app].
  now destruct (write_file_response_chunked w _ r).
Qed.

Lemma main_outcome w cwd started ended p c mc :
  let header := [LogInfo ("Start run: " +:+ started);
                 LogInfo ("Digital Id: " +:+ digital_id mc);
                 LogInfo ("Manifest: " +:+ manifest mc)] in
  match create_filename (filename_segments mc) None None "log" with
  | Raise e => main w cwd started ended p c mc = ([], Raise e)
  | Ok _ =>
      match snd (retrieve_files w cwd p c mc) with
      | Ok _ =>
          main w cwd started ended p c mc
          = (header ++ fst (retrieve_files w cwd p c mc)
               ++ [LogInfo ("End run: " +:+ ended)], Ok tt)
      | Raise e =>
          main w cwd started ended p c mc
          = (header ++ fst (retrieve_files w cwd p c mc), Raise e)
      end
  end.
Proof.
  intros header. unfold main.
  destruct (create_filename _ None None "log") as [fn|e]; [|reflexivity].
  cbn [lift seq info emit List.app].
  destruct (retrieve_files w cwd p c mc) as [t [[]|e]]; reflexivity.
Qed.

Lemma fetched_app (t1 t2 : list event) : fetched (t1 ++ t2) = fetched t1 ++ fetched t2.
Proof.
  induction t1 as [|[u|m|f r] t1 IH]; simpl; [reflexivity | now rewrite IH | exact IH..].
Qed.

Lemma written_app (t1 t2 : list event) : written (t1 ++ t2) = written t1 ++ written t2.
Proof.
  induction t1 as [|[u|m|f r] t1 IH]; simpl; [reflexivity | exact IH.. | now rewrite IH].
Qed.

Lemma logged_app (t1 t2 : list event) : logged (t1 ++ t2) = logged t1 ++ logged t2.
Proof.
  induction t1 as [|[u|m|f r] t1 IH]; simpl; [reflexivity | exact IH | now rewrite IH | exact IH].
Qed.

Lemma in_fetched (t : list event) (url : string) :
  In url (fetched t) <-> In (Fetch url) t.
Proof.
  induction t as [|[u|m|f r] t IH]; simpl.
  - tauto.
  - rewrite IH. split; intros [H|H]; auto; left; congruence.
  - rewrite IH. split; [auto | intros [H|H]; [discriminate | exact H]].
  - rewrite IH. split; [auto | intros [H|H]; [discriminate | exact H]].
Qed.

Lemma in_written (t : list event) (filepath : PurePath) (r : response) :
  In (filepath, r) (written t) <-> In (FileWrite filepath r) t.
Proof.
  induction t as [|[u|m|f r'] t IH]; simpl.
  - tauto.
  - rewrite IH. split; [auto | intros [H|H]; [discriminate | exact H]].
  - rewrite IH. split; [auto | intros [H|H]; [discriminate | exact H]].
  - rewrite IH. split; intros [H|H]; auto; left; congruence.
Qed.

Lemma in_logged (t : list event) (msg : string) :
  In msg (logged t) <-> In (LogInfo msg) t.
Proof.
  induction t as [|[u|m|f r] t IH]; simpl.
  - tauto.
  - rewrite IH. split; [auto | intros [H|H]; [discriminate | exact H]].
  - rewrite IH. split; intros [H|H]; auto; left; congruence.
  - rewrite IH. split; [auto | intros [H|H]; [discriminate | exact H]].
Qed.

End OutcomeFacts.

Section ItemFacts.

Variable w : world.
Variable cwd : PurePath.
Variable p : parser.
Variable c : config.
Variable ns : name_segments.

Lemma retrieve_item_ok (item : path_segment * Z) :
  snd (retrieve_item w cwd p c ns item) = Ok tt ->
  exists url r filepath,
    item_url p c item = Ok url
    /\ requests_get w url = Ok r
    /\ item_filepath cwd p ns item = Ok filepath
    /\ write_file_response_chunked w filepath r = Ok tt
    /\ fst (retrieve_item w cwd p c ns item)
       = [Fetch url; LogInfo ("Target URL: " +:+ url);
          LogInfo ("Image renamed to " +:+ name filepath);
          FileWrite filepath r].
Proof.
  pose proof (retrieve_item_outcome w cwd p c ns item) as H.
  destruct (item_url p c item) as [url|e]; [|rewrite H; discriminate].
  destruct (requests_get w url) as [r|e] eqn:Hr; [|rewrite H; discriminate].
  destruct (item_filepath cwd p ns item) as [fp|e]; [|rewrite H; discriminate].
  rewrite H. cbn [fst snd]. intros Hw. exists url, r, fp. now repeat split.
Qed.

Lemma retrieve_item_event (item : path_segment * Z) (ev : event) :
  In ev (fst (retrieve_item w cwd p c ns item)) ->
  exists url,
    item_url p c item = Ok url
    /\ (ev = Fetch url
        \/ exists r,
             requests_get w url = Ok r
             /\ (ev = LogInfo ("Target URL: " +:+ url)
                 \/ exists filepath,
                      item_filepath cwd p ns item = Ok filepath
                      /\ (ev = LogInfo ("Image renamed to " +:+ name filepath)
                          \/ ev = FileWrite filepath r))).
Proof.
  pose proof (retrieve_item_outcome w cwd p c ns item) as H.
  destruct (item_url p c item) as [url|e]; [|rewrite H; intros []].
  intros Hin. exists url. split; [reflexivity|].
  destruct (requests_get w url) as [r|e] eqn:Hr.
  - destruct (item_filepath cwd p ns item) as [fp|e]; rewrite H in Hin;
      cbn [fst] in Hin.
    + destruct Hin as [<-|[<-|[<-|[<-|[]]]]]; [now left|right..];
        exists r; (split; [reflexivity|]); [now left|right..];
        exists fp; (split; [reflexivity|]); [now left | now right].
    + destruct Hin as [<-|[<-|[]]]; [now left|right].
      exists r. split; [reflexivity | now left].
  - rewrite H in Hin. destruct Hin as [<-|[]]. now left.
Qed.

Lemma completed_items (items : list (path_segment * Z)) :
  Forall (fun it => snd (retrieve_item w cwd p c ns it) = Ok tt) items ->
  let t := List.concat (List.map (fun it => fst (retrieve_item w cwd p c ns it)) items) in
  List.map (item_url p c) items = List.map Ok (fetched t)
  /\ List.map (item_filepath cwd p ns) items
     = List.map (fun fr => Ok (fst fr)) (written t)
  /\ List.map (requests_get w) (fetched t)
     = List.map (fun fr => Ok (snd fr)) (written t).
Proof.
  induction 1 as [|item items Hitem _ IH]; [now repeat split|].
  destruct (retrieve_item_ok item Hitem) as (url & r & fp & Hu & Hr & Hf & _ & Ht).
  cbn [List.map List.concat]. rewrite Ht, fetched_app, written_app.
  cbn [fetched written List.app List.map fst snd].
  destruct IH as (IH1 & IH2 & IH3). now rewrite Hu, Hf, Hr, IH1, IH2, IH3.
Qed.

End ItemFacts.

(** X8: the loops stop at the first work item whose handling raises,
    whichever call raised (URL building, fetch, file name building or
    write): either every (segment, index) pair is handled, in order, and the
    loops end normally, or the pairs before the failing one are handled
    completely, the failing one as far as it got, the later ones not at all,
    and the loops end with that exception. *)
Theorem loop_stops_at_first_exception :
  forall w cwd p c mc,
    let body := retrieve_item w cwd p c (filename_segments mc) in
    (snd (retrieve_files w cwd p c mc) = Ok tt
     /\ Forall (fun item => snd (body item) = Ok tt) (work_items mc)
     /\ fst (retrieve_files w cwd p c mc)
        = List.concat (List.map (fun item => fst (body item)) (work_items mc)))
    \/ (exists done item rest e,
          work_items mc = done ++ item :: rest
          /\ Forall (fun item => snd (body item) = Ok tt) done
          /\ snd (body item) = Raise e
          /\ snd (retrieve_files w cwd p c mc) = Raise e
          /\ fst (retrieve_files w cwd p c mc)
             = List.concat (List.map (fun item => fst (body item)) done)
               ++ fst (body item)).
Proof.
  intros w cwd p c mc body. rewrite retrieve_files_items.
  apply for_each_outcome.
Qed.

(** X9: whatever a run writes is what it fetched: every response handed to
    the writer was returned by the request for the URL of some work item, and
    the path it is written to is the one derived for that same item. *)
Theorem written_is_fetched :
  forall w cwd started ended p c mc filepath r,
    In (filepath, r) (written (fst (main w cwd started ended p c mc))) ->
    exists item url,
      In item (work_items mc)
      /\ item_url p c item = Ok url
      /\ requests_get w url = Ok r
      /\ item_filepath cwd p (filename_segments mc) item = Ok filepath.
Proof.
  intros w cwd started ended p c mc filepath r Hin.
  apply in_written in Hin.
  assert (Hloop : In (FileWrite filepath r) (fst (retrieve_files w cwd p c mc))).
  { pose proof (main_outcome w cwd started ended p c mc) as H. cbn zeta in H.
    destruct (create_filename _ None None "log"); [|rewrite H in Hin; destruct Hin].
    destruct (snd (retrieve_files w cwd p c mc)); rewrite H in Hin;
      cbn [fst List.app In] in Hin.
    - destruct Hin as [E|[E|[E|Hin]]]; try discriminate.
      apply in_app_or in Hin as [Hin|[E|[]]]; [exact Hin | discriminate].
    - destruct Hin as [E|[E|[E|Hin]]]; try discriminate. exact Hin. }
  rewrite retrieve_files_items in Hloop.
  apply in_for_each in Hloop as (item & Hitem & Hev).
  apply retrieve_item_event in Hev as (url & Hu & [E|(r' & Hr & [E|(fp & Hf & [E|E])])]);
    try discriminate.
  injection E as <- <-. exists item, url. now repeat split.
Qed.

Lemma written_is_fetched_witness :
  In (mkPath "/" ["home"; "u"; "maps"; "atlas-ward1-1925-vol_2-vol_2-a-0002.jpg"],
      mkResponse 200 "II*")
     (written (fst (main (mkWorld (fun _ => Ok (mkResponse 200 "II*")) (fun _ _ => Ok tt))
                         (mkPath "/" ["home"; "u"]) "t0" "t1"
                         jpg_options loc_config (atlas_maps 3))))
  /\ exists item url,
       In item (work_items (atlas_maps 3))
       /\ item_url jpg_options loc_config item = Ok url
       /\ requests_get (mkWorld (fun _ => Ok (mkResponse 200 "II*")) (fun _ _ => Ok tt)) url
          = Ok (mkResponse 200 "II*")
       /\ item_filepath (mkPath "/" ["home"; "u"]) jpg_options
            (filename_segments (atlas_maps 3)) item
          = Ok (mkPath "/" ["home"; "u"; "maps"; "atlas-ward1-1925-vol_2-vol_2-a-0002.jpg"]).
Proof.
  assert (Hin : In (mkPath "/" ["home"; "u"; "maps"; "atlas-ward1-1925-vol_2-vol_2-a-0002.jpg"],
                    mkResponse 200 "II*")
                   (written (fst (main (mkWorld (fun _ => Ok (mkResponse 200 "II*")) (fun _ _ => Ok tt))
                                       (mkPath "/" ["home"; "u"]) "t0" "t1"
                                       jpg_options loc_config (atlas_maps 3))))).
  { vm_compute. right. left. reflexivity. }
  split; [exact Hin|].
  exact (written_is_fetched _ _ _ _ _ _ _ _ _ Hin).
Defined.

(** X10: a run that ends normally has requested the URL of every work item
    exactly once, in the order of the items, and has written for each item
    the response of its request to the path derived for it. *)
Theorem completed_run :
  forall w cwd started ended p c mc,
    snd (main w cwd started ended p c mc) = Ok tt ->
    let t := fst (main w cwd started ended p c mc) in
    List.map (item_url p c) (work_items mc) = List.map Ok (fetched t)
    /\ List.map (item_filepath cwd p (filename_segments mc)) (work_items mc)
       = List.map (fun fr => Ok (fst fr)) (written t)
    /\ List.map (requests_get w) (fetched t)
       = List.map (fun fr => Ok (snd fr)) (written t)
    /\ length (fetched t) = length (work_items mc)
    /\ length (written t) = length (work_items mc).
Proof.
  intros w cwd started ended p c mc Hok t.
  pose proof (main_outcome w cwd started ended p c mc) as H. cbn zeta in H.
  destruct (create_filename _ None None "log");
    [|rewrite H in Hok; discriminate].
  destruct (snd (retrieve_files w cwd p c mc)) as [[]|e] eqn:Hloop;
    [|rewrite H in Hok; discriminate].
  assert (Ht : fetched t = fetched (fst (retrieve_files w cwd p c mc))
               /\ written t = written (fst (retrieve_files w cwd p c mc))).
  { unfold t. rewrite H. cbn [fst fetched written List.app].
    rewrite fetched_app, written_app. cbn [fetched written].
    now rewrite !List.app_nil_r. }
  destruct Ht as [-> ->].
  rewrite retrieve_files_items in *.
  destruct (for_each_outcome (work_items mc)
              (retrieve_item w cwd p c (filename_segments mc)))
    as [(_ & Hall & ->)|(l1 & x & l2 & e & _ & _ & _ & Hr & _)];
    [|rewrite Hr in Hloop; discriminate].
  destruct (completed_items w cwd p c _ _ Hall) as (H1 & H2 & H3).
  repeat split; try assumption.
  - apply (f_equal (@length _)) in H1. now rewrite !List.length_map in H1.
  - apply (f_equal (@length _)) in H2. now rewrite !List.length_map in H2.
Qed.

Lemma completed_run_witness :
  snd (main not_found_world (mkPath "/" ["home"; "u"]) "t0" "t1"
            jpg_options loc_config (atlas_maps 3)) = Ok tt
  /\ fetched (fst (main not_found_world (mkPath "/" ["home"; "u"]) "t0" "t1"
                        jpg_options loc_config (atlas_maps 3)))
     = ["https://tile.loc.gov/image-services/iiif/service:g3290:ct000001/full/pct:25/0/default.jpg";
        "https://tile.loc.gov/image-services/iiif/service:g3290:ct000002/full/pct:25/0/default.jpg"]
  /\ length (written (fst (main not_found_world (mkPath "/" ["home"; "u"]) "t0" "t1"
                                jpg_options loc_config (atlas_maps 3))))
     = length (work_items (atlas_maps 3)).
Proof.
  assert (Hok : snd (main not_found_world (mkPath "/" ["home"; "u"]) "t0" "t1"
                          jpg_options loc_config (atlas_maps 3)) = Ok tt)
    by (vm_compute; reflexivity).
  split; [exact Hok|]. split; [vm_compute; reflexivity|].
  exact (proj2 (proj2 (proj2 (proj2
           (completed_run not_found_world (mkPath "/" ["home"; "u"]) "t0" "t1"
              jpg_options loc_config (atlas_maps 3) Hok))))).
Defined.

Section EdgeFacts.

Lemma create_url_unconfigured (p : parser) (c : config) (g idp num : string) :
  service_path c !! format p = None ->
  create_url p c g idp num = Raise (KeyError (format p)).
Proof.
  intros H. unfold create_url. rewrite (getitem_None _ _ H).
  now destruct (is_raw_format (format p)).
Qed.






End EdgeFacts.





(** X13: the line [End run: ...] is logged exactly by the runs that end
    normally, and then it is the last thing that happens: a run that stops on
    an exception never reports its end. *)
Theorem end_run_iff_completed :
  forall w cwd started ended p c mc,
    (In ("End run: " +:+ ended) (logged (fst (main w cwd started ended p c mc)))
     <-> snd (main w cwd started ended p c mc) = Ok tt)
    /\ (snd (main w cwd started ended p c mc) = Ok tt ->
        exists t, fst (main w cwd started ended p c mc)
                  = t ++ [LogInfo ("End run: " +:+ ended)]).
Proof.
  intros w cwd started ended p c mc.
  pose proof (main_outcome w cwd started ended p c mc) as H. cbn zeta in H.
  assert (Hloop : ~ In (LogInfo ("End run: " +:+ ended))
                       (fst (retrieve_files w cwd p c mc))).
  { rewrite retrieve_files_items. intros Hin.
    apply in_for_each in Hin as (item & _ & Hev).
    apply retrieve_item_event in Hev
      as (url & _ & [E|(r & _ & [E|(fp & _ & [E|E])])]); discriminate. }
  destruct (create_filename _ None None "log") as [fn|e].
  - destruct (snd (retrieve_files w cwd p c mc)) as [[]|e]; rewrite H; cbn [fst snd].
    + split; [|intros _; eexists; rewrite List.app_assoc; reflexivity].
      split; [reflexivity|]. intros _. apply in_logged.
      apply in_or_app. right. apply in_or_app. right. now left.
    + split; [|discriminate]. split; [|discriminate].
      intros Hin. apply in_logged in Hin. cbn [List.app In] in Hin.
      destruct Hin as [E|[E|[E|Hin]]]; try discriminate. contradiction.
  - rewrite H. cbn [fst snd logged]. split; [|discriminate].
    split; [intros [] | discriminate].
Qed.

Lemma end_run_iff_completed_witness :
  snd (main not_found_world (mkPath "/" ["home"; "u"]) "t0" "t1"
            jpg_options loc_config (atlas_maps 3)) = Ok tt
  /\ In ("End run: " +:+ "t1")
        (logged (fst (main not_found_world (mkPath "/" ["home"; "u"]) "t0" "t1"
                           jpg_options loc_config (atlas_maps 3))))
  /\ ~ In ("End run: " +:+ "t1")
          (logged (fst (main broken_link_world (mkPath "/" ["home"; "u"]) "t0" "t1"
                             jpg_options loc_config (atlas_maps 4)))).
Proof.
  assert (Hok : snd (main not_found_world (mkPath "/" ["home"; "u"]) "t0" "t1"
                          jpg_options loc_config (atlas_maps 3)) = Ok tt)
    by (vm_compute; reflexivity).
  split; [exact Hok|]. split.
  - exact (proj2 (proj1 (end_run_iff_completed not_found_world
                           (mkPath "/" ["home"; "u"]) "t0" "t1"
                           jpg_options loc_config (atlas_maps 3))) Hok).
  - intros Hin.
    pose proof (proj1 (proj1 (end_run_iff_completed broken_link_world
                                (mkPath "/" ["home"; "u"]) "t0" "t1"
                                jpg_options loc_config (atlas_maps 4))) Hin) as E.
    vm_compute in E. discriminate.
Defined.

(** X14: a collection without name segments, year and volume cannot be run:
    [main] fails on the name of the log file before anything is logged,
    requested or written, whatever the options and the collaborators. *)
Theorem empty_collection_aborts :
  forall w cwd started ended p c mc,
    seg_name (filename_segments mc) = [] ->
    truthy (seg_year (filename_segments mc)) = false ->
    truthy (seg_vol (filename_segments mc)) = false ->
    main w cwd started ended p c mc = ([], Raise (ValueError "has an empty name")).
Proof.
  intros w cwd started ended p c mc Hn Hy Hv.
  pose proof (main_outcome w cwd started ended p c mc) as H. cbn zeta in H.
  assert (E : create_filename (filename_segments mc) None None "log"
              = Raise (ValueError "has an empty name")).
  { unfold create_filename. cbn [String.eqb Ascii.eqb Bool.eqb].
    unfold base_segments. rewrite Hn, Hy, Hv. reflexivity. }
  now rewrite E in H.
Qed.

Lemma empty_collection_aborts_witness :
  seg_name (mkSegments [] (PyInt 0) (PyStr "")) = []
  /\ truthy (PyInt 0) = false
  /\ truthy (PyStr "") = false
  /\ main not_found_world (mkPath "/" ["home"; "u"]) "t0" "t1" jpg_options loc_config
          (mkMapConfig "id" "manifest" (mkSegments [] (PyInt 0) (PyStr ""))
             [mkPathSegment "g3290" "ct000" None 1 3 3])
     = ([], Raise (ValueError "has an empty name")).
Proof.
  split; [reflexivity|]. split; [reflexivity|]. split; [reflexivity|].
  exact (empty_collection_aborts not_found_world (mkPath "/" ["home"; "u"]) "t0" "t1"
           jpg_options loc_config
           (mkMapConfig "id" "manifest" (mkSegments [] (PyInt 0) (PyStr ""))
              [mkPathSegment "g3290" "ct000" None 1 3 3])
           eq_refl eq_refl eq_refl).
Defined.

(** X15: [create_url] returns a URL exactly when the service-path mapping
    holds the format; the URL then starts with
    protocol://subdomain.domain/ and ends with ['.'] and the format, in
    either scheme. *)
Theorem create_url_configured :
  forall p c g idp num,
    ((exists url, create_url p c g idp num = Ok url)
     <-> (exists sp, service_path c !! format p = Some sp))
    /\ (forall url, create_url p c g idp num = Ok url ->
          String.prefix (protocol c +:+ "://" +:+ subdomain c +:+ "." +:+ domain c
                         +:+ "/") url = true
          /\ ends_with ("." +:+ format p) url).
Proof.
  intros p c g idp num.
  assert (Hshape : forall sp, service_path c !! format p = Some sp ->
            exists mid, create_url p c g idp num
              = Ok ((protocol c +:+ "://" +:+ subdomain c +:+ "." +:+ domain c +:+ "/")
                    +:+ mid +:+ "." +:+ format p)).
  { intros sp Hsp. unfold create_url. rewrite (getitem_Some _ _ _ Hsp). cbn [bind].
    unfold PyStr.join. cbn [String.concat].
    destruct (is_raw_format (format p)).
    - exists (sp +:+ "/" +:+ PyStr.replace ":" "/" g +:+ "/" +:+ idp +:+ num).
      rewrite !app_assoc. reflexivity.
    - exists (sp +:+ ":" +:+ g +:+ ":" +:+ idp +:+ num +:+ "/" +:+ region p
              +:+ "/pct:" +:+ py_str (size p) +:+ "/" +:+ py_str (rotation_degrees p)
              +:+ "/" +:+ quality p).
      rewrite !app_assoc. reflexivity. }
  split; [split|].
  - intros [url Hurl]. destruct (service_path c !! format p) as [sp|] eqn:Hsp;
      [now exists sp|].
    rewrite (create_url_unconfigured _ _ _ _ _ Hsp) in Hurl. discriminate.
  - intros [sp Hsp]. destruct (Hshape sp Hsp) as [mid E]. eexists. exact E.
  - intros url Hurl. destruct (service_path c !! format p) as [sp|] eqn:Hsp.
    + destruct (Hshape sp eq_refl) as [mid E]. rewrite E in Hurl. injection Hurl as <-.
      split; [apply prefix_app|].
      exists ((protocol c +:+ "://" +:+ subdomain c +:+ "." +:+ domain c +:+ "/") +:+ mid).
      symmetry. apply app_assoc.
    + rewrite (create_url_unconfigured _ _ _ _ _ Hsp) in Hurl. discriminate.
Qed.

Lemma create_url_configured_witness :
  (exists sp, service_path loc_config !! format tif_options = Some sp)
  /\ (exists url, create_url tif_options loc_config "g3290:g3290" "ct000" "003" = Ok url)
  /\ String.prefix "https://tile.loc.gov/"
       "https://tile.loc.gov/tif/g3290/g3290/ct000003.tif" = true.
Proof.
  assert (Hsp : exists sp, service_path loc_config !! format tif_options = Some sp)
    by (exists "tif"; vm_compute; reflexivity).
  destruct (create_url_configured tif_options loc_config "g3290:g3290" "ct000" "003")
    as [Hiff Hshape].
  split; [exact Hsp|]. split; [exact (proj2 Hiff Hsp)|].
  exact (proj1 (Hshape "https://tile.loc.gov/tif/g3290/g3290/ct000003.tif"
                  ltac:(vm_compute; reflexivity))).
Defined.



(** X17: the segments of the log file name are the first segments of every
    image file name of the collection; when the joined segments of an image
    hold no ['.'] and no ['/'] and the format is a valid extension, the image
    file name starts with the log file name less its [.log]. *)
Theorem image_name_extends_log_name :
  forall ns part num fmt,
    image_segments ns part num
    = base_segments ns ++ vol_tokens ns ++ part_tokens part ++ num_tokens num
    /\ (fmt <> "log" ->
        plain (PyStr.join "-" (image_segments ns part num)) = true ->
        valid_format fmt = true ->
        exists p,
          create_filename ns part num fmt = Ok p
          /\ String.prefix (PyStr.join "-" (base_segments ns)) (to_str p) = true).
Proof.
  intros ns part num fmt.
  assert (Hseg : image_segments ns part num
                 = base_segments ns ++ vol_tokens ns ++ part_tokens part ++ num_tokens num).
  { rewrite image_segments_tokens, base_segments_tokens.
    now rewrite <- !List.app_assoc. }
  split; [exact Hseg|]. intros Hlog Hplain Hfmt.
  rewrite <- (stem_image ns part num fmt Hlog) in Hplain.
  eexists. split; [apply create_filename_plain; assumption|].
  rewrite to_str_single, (stem_image ns part num fmt Hlog), Hseg.
  destruct (join_app_l "-" (base_segments ns)
              (vol_tokens ns ++ part_tokens part ++ num_tokens num)) as [post E].
  rewrite E, app_assoc. apply prefix_app.
Qed.

Lemma image_name_extends_log_name_witness :
  "jpg" <> "log"
  /\ plain (PyStr.join "-" (image_segments scenario_segments (Some "a") (Some "7"))) = true
  /\ valid_format "jpg" = true
  /\ PyStr.join "-" (base_segments scenario_segments) = "atlas-ward1-1925-vol_2"
  /\ exists p,
       create_filename scenario_segments (Some "a") (Some "7") "jpg" = Ok p
       /\ String.prefix (PyStr.join "-" (base_segments scenario_segments)) (to_str p) = true.
Proof.
  assert (Hlog : "jpg" <> "log") by discriminate.
  split; [exact Hlog|]. split; [reflexivity|]. split; [reflexivity|].
  split; [reflexivity|].
  exact (proj2 (image_name_extends_log_name scenario_segments (Some "a") (Some "7") "jpg")
           Hlog eq_refl eq_refl).
Defined.
